(** * create_preview.py: the clip sampler and its assembly pipeline

    A shallow embedding of [src/create_preview.py].  The script probes a
    video's duration with ffmpeg, asks for a clip length and a preview
    percentage, cuts evenly spaced clips with one ffmpeg call per clip,
    writes an ffmpeg concat list and joins the clips with one more call.

    Conventions of the embedding:
    - Python [int] is [Z]; Python [float] is idealised as an exact
      rational [Q] (binary64 rounding is not modelled), so [/] is exact
      division and [round], [math.ceil] and [int] act on exact values;
    - exceptions are values of [exn]; a function that can raise returns
      [exn + A];
    - everything the script does to the outside (sub-processes, files,
      the messages that answer a rejected entry) is recorded, in order,
      as a list of [event]s; what the outside answers is read from a
      record of [collaborators].  The prompts themselves and the lines
      that only report progress are not recorded;
    - text is a [string] of 8-bit characters, and a digit is one of
      [0] to [9]. *)

From Stdlib Require Import ZArith QArith Qround List String Ascii Bool Lia Lqa.
From Stdlib Require Import DecimalString DecimalNat.
Import ListNotations.

Local Open Scope Z_scope.

(** ** Python primitives *)

Module Py.

(** [round(x)] on a float: to the nearest integer, ties to the even one. *)
Definition round (x : Q) : Z :=
  let f := Qfloor x in
  match Qcompare (x - inject_Z f) (1 # 2) with
  | Lt => f
  | Gt => f + 1
  | Eq => if Z.even f then f else f + 1
  end.

(** [math.ceil(x)]. *)
Definition ceil (x : Q) : Z := Qceiling x.

(** [int(x)] on a float: truncation toward zero. *)
Definition int_of_float (x : Q) : Z := Z.quot (Qnum x) (Zpos (Qden x)).

(** [str(i)] for a non-negative integer. *)
Definition str_nat (i : nat) : string :=
  NilEmpty.string_of_uint (Nat.to_uint i).

(** [range(n)]: empty when [n <= 0]. *)
Definition range (n : Z) : list nat := seq 0 (Z.to_nat n).

End Py.

(** ** Exceptions, events and collaborators *)

(** [subprocess.CalledProcessError]: ffmpeg ended with a non-zero status. *)
Record CalledProcessError : Type := {
  returncode : Z;
  stderr : string
}.

(** The pieces of an f-string, kept apart instead of rendered. *)
Inductive frag : Type :=
| Lit (s : string)
| Fmt_nat (i : nat)
| Fmt_cpe (e : CalledProcessError).

Inductive exn : Type :=
| ValueError (msg : string)
| EOFError
| ZeroDivisionError
| RuntimeError (msg : list frag).

(** The argument list of the extraction call.  The codec arguments
    ([-c:v libx264 -crf 10 -c:a aac -b:a 320k -shortest]) are the same in
    every call and are left out. *)
Record extract_cmd : Type := {
  x_ffmpeg : string;
  x_ss : Q;          (* -ss str(start_time) *)
  x_t : Z;           (* -t str(clip_length) *)
  x_input : string;  (* -i input_video *)
  x_out : string     (* str(clip_path) *)
}.

(** The argument list of the joining call ([-f concat -safe 0 -i ... -c copy]). *)
Record combine_cmd : Type := {
  c_ffmpeg : string;
  c_list : string;   (* -i str(concat_file_path) *)
  c_out : string     (* output_preview *)
}.

Inductive event : Type :=
| Print (msg : string)
| Print_error (e : exn)                        (* print(f"Error: {e}") *)
| Mkdir (dir : string)
| Subprocess_extract (cmd : extract_cmd)
| Write_file (path : string) (lines : list string)
| Subprocess_combine (cmd : combine_cmd)
| Cleanup (clips_dir concat_file : string).

(** What the outside answers.  [None] is a sub-process that ended with
    status 0; [Some e] makes [subprocess.run(..., check=True)] raise [e]. *)
Record collaborators : Type := {
  probe_output : string -> string -> string;   (* ffmpeg -i: stderr, or stdout if that is empty *)
  extract_outcome : extract_cmd -> option CalledProcessError;
  combine_outcome : combine_cmd -> option CalledProcessError;
  resolve : string -> string                   (* Path.resolve *)
}.

(** ** Computations that log events and may raise *)

Definition run (A : Type) : Type := (list event * (exn + A))%type.

Definition ret {A} (a : A) : run A := ([], inr a).
Definition raise {A} (e : exn) : run A := ([], inl e).
Definition emit (ev : event) : run unit := ([ev], inr tt).

Definition bind {A B} (m : run A) (k : A -> run B) : run B :=
  match m with
  | (t, inl e) => (t, inl e)
  | (t, inr a) => let (t', r) := k a in (t ++ t', r)
  end.

Notation "x <- m ;; k" := (bind m (fun x => k))
  (at level 61, m at next level, right associativity).
Notation "m ;; k" := (bind m (fun _ => k))
  (at level 61, right associativity).

(** ** The sampler *)

Definition path_join (dir name : string) : string :=
  (dir ++ "/" ++ name)%string.

Definition clip_path_of (clips_dir : string) (i : nat) : string :=
  path_join clips_dir ("clip" ++ Py.str_nat i ++ ".mp4")%string.

Definition start_time_of (duration : Q) (number_of_clips : Z) (i : nat) : Q :=
  ((duration / inject_Z number_of_clips) * inject_Z (Z.of_nat i))%Q.

Section Pipeline.

Variable W : collaborators.

(** The body of [for i in range(number_of_clips)], over the indices
    still to visit, with [clip_paths] as accumulated so far. *)
Fixpoint extract_loop (ffmpeg_path input_video clips_dir : string)
    (duration : Q) (number_of_clips clip_length : Z)
    (indices : list nat) (clip_paths : list string) : run (list string) :=
  match indices with
  | [] => ret clip_paths
  | i :: later =>
      let start_time := start_time_of duration number_of_clips i in
      let clip_path := clip_path_of clips_dir i in
      let cmd := {| x_ffmpeg := ffmpeg_path; x_ss := start_time;
                    x_t := clip_length; x_input := input_video;
                    x_out := clip_path |} in
      emit (Subprocess_extract cmd) ;;
      match extract_outcome W cmd with
      | None =>
          extract_loop ffmpeg_path input_video clips_dir duration
            number_of_clips clip_length later (clip_paths ++ [clip_path])
      | Some e =>
          raise (RuntimeError [Lit "Failed to extract clip "; Fmt_nat i;
                               Lit ": "; Fmt_cpe e])
      end
  end.

(** [preview_duration / clip_length] raises on a zero divisor. *)
Definition number_of_clips_of (preview_duration clip_length : Z) : exn + Z :=
  if clip_length =? 0 then inl ZeroDivisionError
  else inr (Py.ceil (inject_Z preview_duration / inject_Z clip_length)).

Definition create_preview_clips (ffmpeg_path input_video clips_dir : string)
    (duration : Q) (preview_duration clip_length : Z) : run (list string) :=
  match number_of_clips_of preview_duration clip_length with
  | inl e => raise e
  | inr number_of_clips =>
      extract_loop ffmpeg_path input_video clips_dir duration
        number_of_clips clip_length (Py.range number_of_clips) []
  end.

(** [str.replace] of every backslash by a slash. *)
Fixpoint forward_slashes (s : string) : string :=
  match s with
  | EmptyString => EmptyString
  | String c rest =>
      String (if Ascii.eqb c (ascii_of_nat 92) then "/"%char else c)
             (forward_slashes rest)
  end.

Definition newline : string := String (ascii_of_nat 10) EmptyString.

Definition concat_line (clip_path : string) : string :=
  let abs_path := forward_slashes (resolve W clip_path) in
  ("file '" ++ abs_path ++ "'" ++ newline)%string.

Definition create_concat_file (clip_paths : list string)
    (concat_file_path : string) : run unit :=
  emit (Write_file concat_file_path (map concat_line clip_paths)).

Definition combine_clips (ffmpeg_path concat_file_path output_preview : string)
    : run unit :=
  let cmd := {| c_ffmpeg := ffmpeg_path; c_list := concat_file_path;
                c_out := output_preview |} in
  emit (Subprocess_combine cmd) ;;
  match combine_outcome W cmd with
  | None => ret tt
  | Some e => raise (RuntimeError [Lit "Failed to combine clips: "; Fmt_cpe e])
  end.

Definition cleanup_temp_files (clips_dir concat_file_path : string) : run unit :=
  emit (Cleanup clips_dir concat_file_path).

(** The last steps of [main]: cut the clips, list them, join them,
    clean up.  An exception skips every step after the one that
    raised it. *)
Definition assemble (ffmpeg_path input_video output_preview clips_dir : string)
    (duration : Q) (preview_duration clip_length : Z) : run unit :=
  clip_paths <- create_preview_clips ffmpeg_path input_video clips_dir
                  duration preview_duration clip_length ;;
  let concat_file_path := "concat.txt"%string in
  create_concat_file clip_paths concat_file_path ;;
  combine_clips ffmpeg_path concat_file_path output_preview ;;
  cleanup_temp_files clips_dir concat_file_path.

End Pipeline.

(** ** The duration probe *)

Definition is_digit (c : ascii) : bool :=
  let n := nat_of_ascii c in (48 <=? n)%nat && (n <=? 57)%nat.

(** The longest run of digits at the head of [s], and what follows it:
    how a greedy [\d+] or [\d*] splits the text. *)
Fixpoint span_digits (s : string) : string * string :=
  match s with
  | EmptyString => (EmptyString, EmptyString)
  | String c rest =>
      if is_digit c
      then let (ds, tl) := span_digits rest in (String c ds, tl)
      else (EmptyString, s)
  end.

(** [expect lit s] is what follows [lit] when [s] starts with it. *)
Fixpoint expect (lit s : string) : option string :=
  match lit with
  | EmptyString => Some s
  | String c lit' =>
      match s with
      | EmptyString => None
      | String d s' => if Ascii.eqb c d then expect lit' s' else None
      end
  end.

Definition is_empty (s : string) : bool :=
  match s with EmptyString => true | _ => false end.

(** A match of [Duration: (\d+):(\d+):(\d+(?:\.\d+)?)] that starts at the
    head of [s]: the three groups. *)
Definition match_here (s : string) : option (string * string * string) :=
  match expect "Duration: " s with
  | None => None
  | Some s1 =>
      let (hours, s2) := span_digits s1 in
      if is_empty hours then None else
      match expect ":" s2 with
      | None => None
      | Some s3 =>
          let (minutes, s4) := span_digits s3 in
          if is_empty minutes then None else
          match expect ":" s4 with
          | None => None
          | Some s5 =>
              let (secs, s6) := span_digits s5 in
              if is_empty secs then None else
              match expect "." s6 with
              | None => Some (hours, minutes, secs)
              | Some s7 =>
                  let (frac, _) := span_digits s7 in
                  if is_empty frac then Some (hours, minutes, secs)
                  else Some (hours, minutes, (secs ++ "." ++ frac)%string)
              end
          end
      end
  end.

(** [re.search]: the match at the leftmost position that has one. *)
Fixpoint re_search (s : string) : option (string * string * string) :=
  match match_here s with
  | Some groups => Some groups
  | None =>
      match s with
      | EmptyString => None
      | String _ rest => re_search rest
      end
  end.

Definition digit_value (c : ascii) : Z := Z.of_nat (nat_of_ascii c) - 48.

Fixpoint int_of_digits_from (acc : Z) (s : string) : Z :=
  match s with
  | EmptyString => acc
  | String c rest => int_of_digits_from (acc * 10 + digit_value c) rest
  end.

(** [int(s)] for a string of digits. *)
Definition int_of_digits (s : string) : Z := int_of_digits_from 0 s.

(** [float(s)] for [s] of the shape [\d+(?:\.\d+)?], as an exact rational. *)
Definition float_of_decimal (s : string) : Q :=
  let (whole, rest) := span_digits s in
  match expect "." rest with
  | None => inject_Z (int_of_digits whole)
  | Some frac =>
      (inject_Z (int_of_digits whole)
       + inject_Z (int_of_digits frac) / inject_Z (10 ^ Z.of_nat (String.length frac)))%Q
  end.

(** The probing call is made without [check=True]: whatever status
    ffmpeg ends with, the text it printed is searched. *)
Definition get_video_duration (W : collaborators) (ffmpeg_path video_path : string)
    : run Z :=
  let output := probe_output W ffmpeg_path video_path in
  match re_search output with
  | Some (hours, minutes, seconds_str) =>
      let hours := int_of_digits hours in
      let minutes := int_of_digits minutes in
      let seconds := float_of_decimal seconds_str in
      ret (Py.int_of_float (inject_Z (hours * 3600 + minutes * 60) + seconds)%Q)
  | None => raise (ValueError "Could not parse video duration")
  end.

(** ** The two prompts *)

(** A Python float as [float(...)] can return it. *)
Inductive pyfloat : Type :=
| Finite (q : Q)
| Not_finite.        (* inf, -inf, nan: every comparison with 1 and 50 fails *)

(** The built-in text functions the prompts call.  [None] is a
    [ValueError]. *)
Record builtins : Type := {
  str_strip : string -> string;
  int_of_str : string -> option Z;
  float_of_str : string -> option pyfloat
}.

(** A computation that also reads lines of standard input returns what
    is left of it. *)
Definition after {A} (ev : event) (r : run A * list string) : run A * list string :=
  (emit ev ;; fst r, snd r).

Section Prompts.

Variable B : builtins.

(** [while True] asks again after every rejected entry; [input()] on an
    exhausted standard input raises [EOFError]. *)
Fixpoint get_clip_length (stdin : list string) : run Z * list string :=
  match stdin with
  | [] => (raise EOFError, [])
  | line :: rest =>
      let clip_input := str_strip B line in
      if is_empty clip_input then (ret 10, rest)
      else
        match int_of_str B clip_input with
        | Some clip_length =>
            if (1 <=? clip_length) && (clip_length <=? 60)
            then (ret clip_length, rest)
            else after
                   (Print "Please enter a clip length between 1 and 60 seconds.")
                   (get_clip_length rest)
        | None =>
            after (Print "Please enter a valid number.") (get_clip_length rest)
        end
  end.

Definition percentage_in_range (percentage : pyfloat) : bool :=
  match percentage with
  | Finite p => Qle_bool 1 p && Qle_bool p 50
  | Not_finite => false
  end.

Fixpoint ask_percentage (stdin : list string) : run Q * list string :=
  match stdin with
  | [] => (raise EOFError, [])
  | line :: rest =>
      match float_of_str B line with
      | Some (Finite percentage) =>
          if percentage_in_range (Finite percentage)
          then (ret (percentage / 100)%Q, rest)
          else after (Print "Please enter a percentage between 1 and 50.")
                     (ask_percentage rest)
      | Some Not_finite =>
          after (Print "Please enter a percentage between 1 and 50.")
                (ask_percentage rest)
      | None =>
          after (Print "Please enter a valid number.") (ask_percentage rest)
      end
  end.

(** The table of examples printed first divides by [clip_length]. *)
Definition get_preview_percentage (duration clip_length : Z)
    (stdin : list string) : run Q * list string :=
  if clip_length =? 0 then (raise ZeroDivisionError, stdin)
  else ask_percentage stdin.

(** ** The whole run

    [main] from the probe on, for a video named on the command line
    that exists: [ffmpeg_path] is what [find_ffmpeg] returned,
    [output_preview] what [handle_existing_file] returned and
    [timestamp] the text made from [datetime.now()]. *)
Definition main_body (W : collaborators)
    (ffmpeg_path input_video output_preview timestamp : string)
    (stdin : list string) : run unit :=
  duration <- get_video_duration W ffmpeg_path input_video ;;
  let (r1, stdin1) := get_clip_length stdin in
  clip_length <- r1 ;;
  let (r2, _) := get_preview_percentage duration clip_length stdin1 in
  preview_percentage <- r2 ;;
  let preview_duration := Py.round (inject_Z duration * preview_percentage) in
  let clips_dir := ("clips_" ++ timestamp)%string in
  emit (Mkdir clips_dir) ;;
  assemble W ffmpeg_path input_video output_preview clips_dir
    (inject_Z duration) preview_duration clip_length.

(** [except Exception as e: print(f"Error: {e}"); sys.exit(1)]. *)
Definition main (W : collaborators)
    (ffmpeg_path input_video output_preview timestamp : string)
    (stdin : list string) : list event * Z :=
  match main_body W ffmpeg_path input_video output_preview timestamp stdin with
  | (log, inr _) => (log, 0)
  | (log, inl e) => (log ++ [Print_error e], 1)
  end.

End Prompts.

(** ** The plan: what a run asks the extraction collaborator for *)

(** The extraction calls of a log, in the order they were made. *)
Definition extract_cmds (log : list event) : list extract_cmd :=
  flat_map (fun ev => match ev with
                      | Subprocess_extract cmd => [cmd]
                      | _ => []
                      end) log.

(** The joining calls of a log. *)
Definition combine_cmds (log : list event) : list combine_cmd :=
  flat_map (fun ev => match ev with
                      | Subprocess_combine cmd => [cmd]
                      | _ => []
                      end) log.

(** The concat lists written by a log. *)
Definition written_lists (log : list event) : list (list string) :=
  flat_map (fun ev => match ev with
                      | Write_file _ lines => [lines]
                      | _ => []
                      end) log.

(** Start offset and length of each call. *)
Definition schedule (cmds : list extract_cmd) : list (Q * Z) :=
  map (fun cmd => (x_ss cmd, x_t cmd)) cmds.

(** Collaborators under which every extraction succeeds. *)
Definition extraction_succeeds (W : collaborators) : Prop :=
  forall cmd, extract_outcome W cmd = None.

Definition obliging : collaborators :=
  {| probe_output := fun _ _ => EmptyString;
     extract_outcome := fun _ => None;
     combine_outcome := fun _ => None;
     resolve := fun p => p |}.

(** The call made for index [i]. *)
Definition request_for (ffmpeg_path input_video clips_dir : string)
    (duration : Q) (number_of_clips clip_length : Z) (i : nat) : extract_cmd :=
  {| x_ffmpeg := ffmpeg_path;
     x_ss := start_time_of duration number_of_clips i;
     x_t := clip_length;
     x_input := input_video;
     x_out := clip_path_of clips_dir i |}.

(** [preview_duration] as [main] computes it, then the calls
    [create_preview_clips] makes when no extraction fails. *)
Definition plan (ffmpeg_path input_video clips_dir : string)
    (total_duration : Q) (clip_length : Z) (preview_fraction : Q)
    : list extract_cmd :=
  let preview_duration := Py.round (total_duration * preview_fraction) in
  extract_cmds (fst (create_preview_clips obliging ffmpeg_path input_video
                       clips_dir total_duration preview_duration clip_length)).

(** The number of clips for a request, as the two divisions in [main] and
    [create_preview_clips] compute it. *)
Definition clip_count (total_duration : Q) (clip_length : Z) (preview_fraction : Q) : Z :=
  Py.ceil (inject_Z (Py.round (total_duration * preview_fraction))
           / inject_Z clip_length).

(** ** A runtime for the examples

    Text functions that read unsigned decimal numerals, on which they
    agree with Python ([int("61")] is 61, [float("50")] is 50.0); any
    other entry is a [ValueError] here. *)

Fixpoint digits_only (s : string) : bool :=
  match s with
  | EmptyString => true
  | String c rest => is_digit c && digits_only rest
  end.

(** What [\d+] matches in full: one digit or more and nothing else. *)
Definition all_digits (s : string) : bool :=
  negb (is_empty s) && digits_only s.

Definition starts_with_digit (s : string) : bool :=
  match s with
  | EmptyString => false
  | String c _ => is_digit c
  end.

Definition decimal_builtins : builtins :=
  {| str_strip := fun s => s;
     int_of_str := fun s =>
       if all_digits s then Some (int_of_digits s) else None;
     float_of_str := fun s =>
       if all_digits s then Some (Finite (inject_Z (int_of_digits s))) else None |}.

(** Collaborators for the examples: ffmpeg reports [text] for every
    file, and clip number [k] (by its output path under [clips_dir])
    fails with [cause] while every other call succeeds. *)
Definition failing_at (text clips_dir : string) (k : nat)
    (cause : CalledProcessError) : collaborators :=
  {| probe_output := fun _ _ => text;
     extract_outcome := fun cmd =>
       if String.eqb (x_out cmd) (clip_path_of clips_dir k)
       then Some cause else None;
     combine_outcome := fun _ => None;
     resolve := fun p => p |}.

(** Collaborators for the examples: ffmpeg reports [text] and every
    call succeeds. *)
Definition reporting (text : string) : collaborators :=
  {| probe_output := fun _ _ => text;
     extract_outcome := fun _ => None;
     combine_outcome := fun _ => None;
     resolve := fun p => p |}.

(** A log that holds nothing but messages. *)
Definition only_prints (log : list event) : Prop :=
  Forall (fun ev => exists msg, ev = Print msg) log.

(** ** A completed run *)


(** ** The rest of the script

    The functions around the sampler: how a duration is printed, how
    ffmpeg, the video and the output file are chosen, and [main] with
    all of them.  What the machine answers is read from a [host].  In
    addition to the messages that answer a rejected entry, the message
    that explains an exit is recorded. *)







(** What ends a function other than a return: [sys.exit], which
    [except Exception] does not catch, or an exception. *)
Inductive interruption : Type :=
| SystemExit (status : Z)
| FileNotFoundError (msg : string)
| Raised (e : exn).

(** What the whole script does to the outside: an event of the sampler,
    or [os.remove(path)], which is taken to succeed. *)
Inductive action : Type :=
| Logged (ev : event)
| Os_remove (path : string).

(** What the machine answers. *)
Record host : Type := {
  shutil_which : option string;     (* shutil.which('ffmpeg') *)
  lookup_stdout : option string;    (* stdout of which/where ffmpeg when it ends with status 0 *)
  os_name_nt : bool;                (* os.name == 'nt' *)
  walked : list string;             (* every ffmpeg.exe the os.walk loops meet, in order *)
  glob_mp4 : list string;           (* glob.glob("*.mp4") *)
  path_exists : string -> bool;     (* os.path.exists *)
  str_upper : string -> string;     (* str.upper *)
  path_sibling : string -> string -> string;  (* str(Path(p).parent / name) *)
  path_stem : string -> string;     (* Path(p).stem *)
  argv1 : option string;            (* sys.argv[1] when len(sys.argv) > 1 *)
  timestamp_now : string            (* datetime.now().strftime(...)[:-3] *)
}.

(** A function that logs, reads standard input and may be interrupted. *)
Definition session (A : Type) : Type :=
  ((list action * (interruption + A)) * list string)%type.

Definition script (A : Type) : Type := list string -> session A.

Definition told {A} (ev : event) (r : session A) : session A :=
  ((Logged ev :: fst (fst r), snd (fst r)), snd r).

Definition sret {A} (a : A) : script A := fun stdin => (([], inr a), stdin).

Definition sbind {A B} (m : script A) (k : A -> script B) : script B :=
  fun stdin =>
    match m stdin with
    | ((log, inl i), rest) => ((log, inl i), rest)
    | ((log, inr a), rest) =>
        match k a rest with
        | ((log', r), rest') => ((log ++ log', r), rest')
        end
    end.

Definition interrupted_by {A} (r : exn + A) : interruption + A :=
  match r with inl e => inl (Raised e) | inr a => inr a end.

(** A computation of the sampler, which reads no input. *)
Definition lift_run {A} (r : run A) : script A :=
  fun stdin => ((map Logged (fst r), interrupted_by (snd r)), stdin).

(** One of the two prompts. *)
Definition lift_prompt {A} (p : list string -> run A * list string) : script A :=
  fun stdin =>
    ((map Logged (fst (fst (p stdin))), interrupted_by (snd (fst (p stdin)))),
     snd (p stdin)).

(** [print(msg); sys.exit(status)]. *)
Definition exit_with {A} (msg : string) (status : Z) : script A :=
  fun stdin => (([Logged (Print msg)], inl (SystemExit status)), stdin).

(** [str.split('\n')]. *)
Fixpoint split_newline (s : string) : list string :=
  match s with
  | EmptyString => [EmptyString]
  | String c rest =>
      if Ascii.eqb c (ascii_of_nat 10) then EmptyString :: split_newline rest
      else match split_newline rest with
           | [] => [String c EmptyString]
           | first :: others => String c first :: others
           end
  end.

(** [path not in [p[1] for p in all_paths]], then [append]. *)
Definition add_if_new (source : string) (all_paths : list (string * string))
    (path : string) : list (string * string) :=
  if existsb (String.eqb path) (map snd all_paths) then all_paths
  else all_paths ++ [(source, path)].

(** [all_paths] as [find_ffmpeg] has it when the search is over. *)
Definition found_installations (B : builtins) (H : host) : list (string * string) :=
  let from_path :=
    match shutil_which H with
    | Some ffmpeg_path =>
        if is_empty ffmpeg_path then [] else [("PATH"%string, ffmpeg_path)]
    | None => []
    end in
  let with_system :=
    match lookup_stdout H with
    | Some stdout =>
        if is_empty (str_strip B stdout) then from_path
        else fold_left (fun all_paths path =>
                          add_if_new "System" all_paths (str_strip B path))
                       (split_newline (str_strip B stdout)) from_path
    | None => from_path
    end in
  if existsb (fun entry => String.eqb (fst entry) "PATH") with_system
  then with_system
  else if os_name_nt H
       then fold_left (add_if_new "Found") (walked H) with_system
       else with_system.

(** The loop that asks which installation to use; [first :: others] is
    [all_paths]. *)
Fixpoint choose_installation (B : builtins) (first : string * string)
    (others : list (string * string)) (stdin : list string) : session string :=
  match stdin with
  | [] => (([], inl (Raised EOFError)), [])
  | line :: rest =>
      let all_paths := first :: others in
      let choice := str_strip B line in
      if is_empty choice then (([], inr (snd first)), rest)
      else
        match int_of_str B choice with
        | Some choice_num =>
            if (1 <=? choice_num) && (choice_num <=? Z.of_nat (List.length all_paths))
            then (([], inr (nth (Z.to_nat (choice_num - 1)) (map snd all_paths)
                              (snd first))), rest)
            else told (Print ("Please enter a number between 1 and "
                              ++ Py.str_nat (List.length all_paths) ++ "."))
                      (choose_installation B first others rest)
        | None =>
            told (Print "Please enter a valid number.")
                 (choose_installation B first others rest)
        end
  end.

Definition find_ffmpeg (B : builtins) (H : host) : script string :=
  fun stdin =>
    match found_installations B H with
    | [] =>
        (([], inl (FileNotFoundError
                     "ffmpeg not found. Please install ffmpeg or add it to PATH.")),
         stdin)
    | first :: others =>
        match others with
        | [] =>
            if String.eqb (fst first) "PATH" then (([], inr (snd first)), stdin)
            else choose_installation B first others stdin
        | _ :: _ => choose_installation B first others stdin
        end
    end.

(** The duration listed for a file: 0 when the probe raises. *)
Definition listed_duration (W : collaborators) (ffmpeg_path video_file : string) : Z :=
  match snd (get_video_duration W ffmpeg_path video_file) with
  | inr duration => duration
  | inl _ => 0
  end.

(** The loop that asks which video to process; [first :: others] is
    [video_info]. *)
Fixpoint choose_video (B : builtins) (first : string * Z)
    (others : list (string * Z)) (stdin : list string) : session (string * Z) :=
  match stdin with
  | [] => (([], inl (Raised EOFError)), [])
  | line :: rest =>
      let video_info := first :: others in
      match int_of_str B line with
      | Some choice =>
          if (1 <=? choice) && (choice <=? Z.of_nat (List.length video_info))
          then (([], inr (nth (Z.to_nat (choice - 1)) video_info first)), rest)
          else told (Print "Invalid selection. Please enter a valid number.")
                    (choose_video B first others rest)
      | None =>
          told (Print "Invalid selection. Please enter a valid number.")
               (choose_video B first others rest)
      end
  end.

Definition select_video_file (B : builtins) (W : collaborators) (H : host)
    (ffmpeg_path : string) : script (string * Z) :=
  fun stdin =>
    let video_info :=
      map (fun video_file =>
             (video_file, listed_duration W ffmpeg_path video_file))
          (glob_mp4 H) in
    match video_info with
    | [] => exit_with "No MP4 files found in current directory." 1 stdin
    | first :: others => choose_video B first others stdin
    end.

(** The loop of [handle_existing_file], entered when the file exists. *)
Fixpoint ask_overwrite (H : host) (output_path : string) (stdin : list string)
    : session string :=
  match stdin with
  | [] => (([], inl (Raised EOFError)), [])
  | line :: rest =>
      let choice := str_upper H line in
      if String.eqb choice "O"
      then (([Os_remove output_path], inr output_path), rest)
      else if String.eqb choice "S"
      then (([], inl (SystemExit 0)), rest)
      else if String.eqb choice "R"
      then match rest with
           | [] => (([], inl (Raised EOFError)), [])
           | new_name :: rest' =>
               (([], inr (path_sibling H output_path (new_name ++ ".mp4")%string)),
                rest')
           end
      else told (Print "Invalid choice. Please enter O, S, or R.")
                (ask_overwrite H output_path rest)
  end.

Definition handle_existing_file (H : host) (output_path : string) : script string :=
  fun stdin =>
    if path_exists H output_path then ask_overwrite H output_path stdin
    else (([], inr output_path), stdin).

(** The body of [main]'s [try]. *)
Definition main_script_body (B : builtins) (W : collaborators) (H : host)
    : script unit :=
  sbind (find_ffmpeg B H) (fun ffmpeg_path =>
  sbind (match argv1 H with
         | Some input_video =>
             if path_exists H input_video
             then sbind (lift_run (get_video_duration W ffmpeg_path input_video))
                        (fun duration => sret (input_video, duration))
             else exit_with ("Error: Video file '" ++ input_video ++ "' not found.") 1
         | None => select_video_file B W H ffmpeg_path
         end) (fun chosen =>
  let input_video := fst chosen in
  let duration := snd chosen in
  sbind (lift_prompt (get_clip_length B)) (fun clip_length =>
  sbind (lift_prompt (get_preview_percentage B duration clip_length))
        (fun preview_percentage =>
  let preview_duration := Py.round (inject_Z duration * preview_percentage) in
  sbind (handle_existing_file H
           (path_sibling H input_video
              (path_stem H input_video ++ " sampler.mp4")%string))
        (fun output_preview =>
  let clips_dir := ("clips_" ++ timestamp_now H)%string in
  lift_run (emit (Mkdir clips_dir) ;;
            assemble W ffmpeg_path input_video output_preview clips_dir
              (inject_Z duration) preview_duration clip_length)))))).

(** [main]: the log and the exit status of the process. *)
Definition main_script (B : builtins) (W : collaborators) (H : host)
    (stdin : list string) : list action * Z :=
  match fst (main_script_body B W H stdin) with
  | (log, inr _) => (log, 0)
  | (log, inl (SystemExit status)) => (log, status)
  | (log, inl (FileNotFoundError msg)) =>
      (log ++ [Logged (Print ("Error: " ++ msg))], 1)
  | (log, inl (Raised e)) => (log ++ [Logged (Print_error e)], 1)
  end.

(** A machine for the examples: one ffmpeg on the PATH, two videos in
    the current directory, no file exists but [present]; the answers at
    the overwrite prompt are typed in capitals, and a path is a file
    name of the current directory that ends in [.mp4]. *)
Definition plain_host (present : string) (argument : option string) : host :=
  {| shutil_which := Some "/usr/bin/ffmpeg"%string;
     lookup_stdout := Some "/usr/bin/ffmpeg"%string;
     os_name_nt := false;
     walked := [];
     glob_mp4 := ["a.mp4"%string; "b.mp4"%string];
     path_exists := fun p => String.eqb p present;
     str_upper := fun s => s;
     path_sibling := fun _ name => name;
     path_stem := fun p => String.substring 0 (String.length p - 4) p;
     argv1 := argument;
     timestamp_now := "T"%string |}.

(** * Properties *)

(** ** Arithmetic of [round], [math.ceil] and [int] *)

Section Arithmetic.

Local Open Scope Q_scope.



(** [round] returns an integer at distance at most one half. *)
Lemma round_nearest (x : Q) :
  x - (1 # 2) <= inject_Z (Py.round x) <= x + (1 # 2).
Proof.
  pose proof (Qfloor_le x) as Hlo.
  pose proof (Qlt_floor x) as Hhi.
  rewrite inject_Z_plus in Hhi.
  change (inject_Z 1) with 1 in Hhi.
  unfold Py.round.
  destruct (Qcompare (x - inject_Z (Qfloor x)) (1 # 2)) eqn:Hc.
  - apply Qeq_alt in Hc.
    destruct (Z.even (Qfloor x)).
    + lra.
    + rewrite inject_Z_plus. change (inject_Z 1) with 1. lra.
  - apply Qlt_alt in Hc. lra.
  - apply Qgt_alt in Hc. rewrite inject_Z_plus. change (inject_Z 1) with 1. lra.
Qed.

(** [math.ceil(p / c)] for integers [p] and [c > 0] is the least [n]
    with [p <= n * c]. *)
Lemma ceil_div_spec (p c : Z) :
  (0 < c)%Z ->
  let n := Py.ceil (inject_Z p / inject_Z c) in
  ((n - 1) * c < p <= n * c)%Z.
Proof.
  intros Hc n.
  assert (Hq : 0 < inject_Z c) by (change 0 with (inject_Z 0); now rewrite <- Zlt_Qlt).
  pose proof (Qle_ceiling (inject_Z p / inject_Z c)) as Hup.
  pose proof (Qceiling_lt (inject_Z p / inject_Z c)) as Hdn.
  fold (Py.ceil (inject_Z p / inject_Z c)) in Hup, Hdn. fold n in Hup, Hdn.
  assert (Hp : inject_Z p == (inject_Z p / inject_Z c) * inject_Z c)
    by (field; lra).
  split.
  - rewrite Zlt_Qlt, inject_Z_mult, Hp.
    apply Qmult_lt_compat_r; [exact Hq | exact Hdn].
  - rewrite Zle_Qle, inject_Z_mult, Hp.
    apply Qmult_le_compat_r; [exact Hup | lra].
Qed.


Lemma ceil_div_zero (c : Z) :
  (0 < c)%Z -> Py.ceil (inject_Z 0 / inject_Z c) = 0%Z.
Proof.
  intros Hc. pose proof (ceil_div_spec 0 c Hc) as H. cbv zeta in H. nia.
Qed.

End Arithmetic.

(** ** The extraction loop *)

Section Loop.

Variables (W : collaborators) (ffmpeg_path input_video clips_dir : string).
Variables (duration : Q) (number_of_clips clip_length : Z).

Local Abbreviation request := (request_for ffmpeg_path input_video clips_dir
                             duration number_of_clips clip_length).
Local Abbreviation loop := (extract_loop W ffmpeg_path input_video clips_dir
                          duration number_of_clips clip_length).

Lemma extract_cmds_of_requests (g : nat -> extract_cmd) (l : list nat) :
  extract_cmds (map (fun i => Subprocess_extract (g i)) l) = map g l.
Proof. induction l as [|i l IH]; simpl; [reflexivity | now rewrite IH]. Qed.

Lemma extract_cmds_app (l1 l2 : list event) :
  extract_cmds (l1 ++ l2) = extract_cmds l1 ++ extract_cmds l2.
Proof. unfold extract_cmds. now rewrite flat_map_app. Qed.

(** One turn of the loop. *)
Lemma loop_step (i : nat) (later : list nat) (acc : list string) :
  loop (i :: later) acc =
  match extract_outcome W (request i) with
  | None =>
      let (log, r) := loop later (acc ++ [clip_path_of clips_dir i]) in
      (Subprocess_extract (request i) :: log, r)
  | Some e =>
      ([Subprocess_extract (request i)],
       inl (RuntimeError [Lit "Failed to extract clip "; Fmt_nat i;
                          Lit ": "; Fmt_cpe e]))
  end.
Proof.
  unfold request_for. simpl.
  destruct (extract_outcome W _); simpl; [reflexivity|].
  destruct (extract_loop _ _ _ _ _ _ _ _ _); reflexivity.
Qed.

(** While nothing fails, every index is visited once, in order. *)
Lemma loop_all_succeed (indices : list nat) (acc : list string) :
  (forall i, In i indices -> extract_outcome W (request i) = None) ->
  loop indices acc =
  (map (fun i => Subprocess_extract (request i)) indices,
   inr (acc ++ map (clip_path_of clips_dir) indices)).
Proof.
  revert acc. induction indices as [|i later IH]; intros acc Hok.
  - simpl. now rewrite app_nil_r.
  - rewrite loop_step, (Hok i (or_introl eq_refl)).
    rewrite IH by (intros j Hj; apply Hok; now right).
    simpl. now rewrite <- app_assoc.
Qed.

(** The first failure ends the loop with an error naming its index. *)
Lemma loop_first_failure (before : list nat) (k : nat) (later : list nat)
    (e : CalledProcessError) (acc : list string) :
  (forall i, In i before -> extract_outcome W (request i) = None) ->
  extract_outcome W (request k) = Some e ->
  loop (before ++ k :: later) acc =
  (map (fun i => Subprocess_extract (request i)) (before ++ [k]),
   inl (RuntimeError [Lit "Failed to extract clip "; Fmt_nat k;
                      Lit ": "; Fmt_cpe e])).
Proof.
  revert acc. induction before as [|i before IH]; intros acc Hok Hk.
  - simpl app. now rewrite loop_step, Hk.
  - simpl app. rewrite loop_step, (Hok i (or_introl eq_refl)).
    rewrite IH by (try (intros j Hj; apply Hok; now right); assumption).
    reflexivity.
Qed.

(** Whatever the collaborator answers, the calls made are the first
    few of the calls planned, and the loop raises nothing but the
    error of [loop_first_failure]. *)
Lemma loop_calls_prefix (indices : list nat) (acc : list string) :
  exists m, fst (loop indices acc) =
            map (fun i => Subprocess_extract (request i)) (firstn m indices).
Proof.
  revert acc. induction indices as [|i later IH]; intros acc.
  - exists 0%nat. reflexivity.
  - rewrite loop_step. destruct (extract_outcome W (request i)).
    + exists 1%nat. reflexivity.
    + destruct (IH (acc ++ [clip_path_of clips_dir i])) as [m Hm].
      exists (S m). destruct (loop later _); simpl in *. now rewrite Hm.
Qed.

End Loop.

(** ** The plan *)

Lemma number_of_clips_of_nonzero (preview_duration clip_length : Z) :
  clip_length <> 0 ->
  number_of_clips_of preview_duration clip_length =
  inr (Py.ceil (inject_Z preview_duration / inject_Z clip_length)).
Proof.
  intros Hc. unfold number_of_clips_of.
  destruct (Z.eqb_spec clip_length 0); [contradiction | reflexivity].
Qed.

(** With every extraction succeeding, the calls made are one per index
    of [range(number_of_clips)], in order. *)
Lemma calls_when_all_succeed (W : collaborators)
    (ffmpeg_path input_video clips_dir : string)
    (duration : Q) (preview_duration clip_length : Z) :
  extraction_succeeds W -> clip_length <> 0 ->
  let n := Py.ceil (inject_Z preview_duration / inject_Z clip_length) in
  create_preview_clips W ffmpeg_path input_video clips_dir
    duration preview_duration clip_length =
  (map (fun i => Subprocess_extract
                   (request_for ffmpeg_path input_video clips_dir duration n clip_length i))
       (Py.range n),
   inr (map (clip_path_of clips_dir) (Py.range n))).
Proof.
  intros HW Hc n. unfold create_preview_clips.
  rewrite number_of_clips_of_nonzero by assumption. fold n.
  rewrite loop_all_succeed by (intros; apply HW). reflexivity.
Qed.

Lemma obliging_succeeds : extraction_succeeds obliging.
Proof. intros cmd. reflexivity. Qed.

Lemma plan_eq (ffmpeg_path input_video clips_dir : string)
    (total_duration : Q) (clip_length : Z) (preview_fraction : Q) :
  clip_length <> 0 ->
  let n := clip_count total_duration clip_length preview_fraction in
  plan ffmpeg_path input_video clips_dir total_duration clip_length preview_fraction =
  map (request_for ffmpeg_path input_video clips_dir total_duration n clip_length)
      (Py.range n).
Proof.
  intros Hc n. unfold plan.
  rewrite calls_when_all_succeed by (try apply obliging_succeeds; assumption).
  simpl fst. now rewrite extract_cmds_of_requests.
Qed.






(** The scenario of the specification: ten minutes, ten-second clips, a
    tenth of the source. *)
Lemma scenario_600_10_tenth :
  Py.round (600 * (1 # 10)) = 60 /\
  clip_count 600 10 (1 # 10) = 6 /\
  map (fun cmd => Qred (x_ss cmd))
      (plan "ffmpeg" "in.mp4" "clips" 600 10 (1 # 10))
  = [0; 100; 200; 300; 400; 500]%Q.
Proof. repeat split. Qed.

Lemma In_firstn {A} (m : nat) (l : list A) (x : A) :
  In x (firstn m l) -> In x l.
Proof.
  revert l. induction m as [|m IH]; intros [|y l]; simpl; try tauto.
  intros [-> | H]; auto.
Qed.

(** The calls of any run are among the first calls of the loop over
    [range(number_of_clips)]. *)
Lemma calls_prefix (W : collaborators)
    (ffmpeg_path input_video clips_dir : string)
    (duration : Q) (preview_duration clip_length : Z) :
  let n := Py.ceil (inject_Z preview_duration / inject_Z clip_length) in
  exists m,
    extract_cmds (fst (create_preview_clips W ffmpeg_path input_video clips_dir
                         duration preview_duration clip_length)) =
    firstn m (map (request_for ffmpeg_path input_video clips_dir
                     duration n clip_length) (Py.range n)).
Proof.
  intros n. unfold create_preview_clips, number_of_clips_of.
  destruct (clip_length =? 0).
  - exists 0%nat. reflexivity.
  - fold n.
    destruct (loop_calls_prefix W ffmpeg_path input_video clips_dir duration n
                clip_length (Py.range n) []) as [m Hm].
    exists m. rewrite Hm, extract_cmds_of_requests. now rewrite firstn_map.
Qed.

(** C6. Every call of every run, and so every entry of every plan, asks
    for [clip_length] seconds, wherever the clip starts: nothing is
    trimmed when [start + clip_length] passes the end of the source. *)
Theorem every_clip_has_the_requested_length (W : collaborators)
    (ffmpeg_path input_video clips_dir : string)
    (total_duration : Q) (preview_duration clip_length : Z) (preview_fraction : Q) :
  Forall (fun cmd => x_t cmd = clip_length)
    (extract_cmds (fst (create_preview_clips W ffmpeg_path input_video clips_dir
                          total_duration preview_duration clip_length))) /\
  Forall (fun cmd => x_t cmd = clip_length)
    (plan ffmpeg_path input_video clips_dir total_duration clip_length
       preview_fraction).
Proof.
  assert (H : forall W' pd,
    Forall (fun cmd => x_t cmd = clip_length)
      (extract_cmds (fst (create_preview_clips W' ffmpeg_path input_video clips_dir
                            total_duration pd clip_length)))).
  { intros W' pd.
    destruct (calls_prefix W' ffmpeg_path input_video clips_dir total_duration
                pd clip_length) as [m ->].
    apply Forall_forall. intros cmd Hin. apply In_firstn in Hin.
    apply in_map_iff in Hin. destruct Hin as (i & <- & _). reflexivity. }
  split; [apply H | apply H].
Qed.

(** A plan whose only clip runs far past the end of a two-second source. *)
Lemma trailing_clip_may_overrun :
  map (fun cmd => (x_ss cmd, x_t cmd)) (plan "ffmpeg" "in.mp4" "clips" 2 60 (1 # 2))
  = [(0%Q, 60)].
Proof. reflexivity. Qed.

(** C8. For [total_duration = 37], [clip_length = 10] and
    [preview_fraction = 0.50] the product is 18.5, which [round] takes to
    the even neighbour 18; that makes 2 clips, starting at 0 and 18.5. *)
Theorem scenario_37_10_half :
  (37 * (1 # 2) == 37 # 2)%Q /\
  Py.round (37 * (1 # 2)) = 18 /\
  clip_count 37 10 (1 # 2) = 2 /\
  map (fun cmd => Qred (x_ss cmd)) (plan "ffmpeg" "in.mp4" "clips" 37 10 (1 # 2))
  = [0; 37 # 2]%Q /\
  map (fun cmd => Qred (x_ss cmd)) (plan "ffmpeg" "in.mp4" "clips" 37 10 (50 / 100))
  = [0; 37 # 2]%Q.
Proof. repeat split. Qed.

(** C9. The schedule of a run (start offset and length of each call, in
    order) is a function of [total_duration], [clip_length] and
    [preview_fraction] alone: two runs in which every extraction succeeds
    make the same schedule whatever the collaborators, the ffmpeg path,
    the input name and the clip directory are; that schedule is the
    plan's; and a run with failures makes the first few calls of it. *)
Theorem plan_is_deterministic (W1 W2 : collaborators)
    (ffmpeg1 ffmpeg2 input1 input2 dir1 dir2 : string)
    (total_duration : Q) (clip_length : Z) (preview_fraction : Q) :
  let preview_duration := Py.round (total_duration * preview_fraction) in
  let calls W ffmpeg_path input_video clips_dir :=
    extract_cmds (fst (create_preview_clips W ffmpeg_path input_video clips_dir
                         total_duration preview_duration clip_length)) in
  (extraction_succeeds W1 -> extraction_succeeds W2 ->
   schedule (calls W1 ffmpeg1 input1 dir1) = schedule (calls W2 ffmpeg2 input2 dir2)) /\
  schedule (plan ffmpeg1 input1 dir1 total_duration clip_length preview_fraction) =
  schedule (plan ffmpeg2 input2 dir2 total_duration clip_length preview_fraction) /\
  exists m,
    schedule (calls W1 ffmpeg1 input1 dir1) =
    firstn m (schedule (plan ffmpeg2 input2 dir2 total_duration clip_length
                          preview_fraction)).
Proof.
  intros preview_duration calls.
  assert (Hsched : forall W ff inp dir, extraction_succeeds W -> clip_length <> 0 ->
    schedule (calls W ff inp dir) =
    map (fun i => (start_time_of total_duration
                     (Py.ceil (inject_Z preview_duration / inject_Z clip_length)) i,
                   clip_length))
        (Py.range (Py.ceil (inject_Z preview_duration / inject_Z clip_length)))).
  { intros W ff inp dir HW Hc. unfold calls.
    rewrite calls_when_all_succeed by assumption. simpl fst.
    rewrite extract_cmds_of_requests. unfold schedule. rewrite map_map.
    reflexivity. }
  assert (Hzero : forall W ff inp dir, clip_length = 0 -> calls W ff inp dir = []).
  { intros W ff inp dir ->. reflexivity. }
  assert (Hplan : forall ff inp dir,
    plan ff inp dir total_duration clip_length preview_fraction =
    calls obliging ff inp dir) by reflexivity.
  destruct (Z.eq_dec clip_length 0) as [Hc | Hc].
  - repeat split.
    + intros _ _. now rewrite !Hzero.
    + now rewrite !Hplan, !Hzero.
    + exists 0%nat. now rewrite Hzero.
  - repeat split.
    + intros H1 H2. now rewrite !Hsched.
    + rewrite !Hplan. now rewrite !Hsched by (try apply obliging_succeeds; assumption).
    + destruct (calls_prefix W1 ffmpeg1 input1 dir1 total_duration preview_duration
                  clip_length) as [m Hm].
      exists m. unfold calls. rewrite Hm.
      rewrite Hplan, Hsched by (try apply obliging_succeeds; assumption).
      unfold schedule. rewrite <- firstn_map, map_map. reflexivity.
Qed.

(** ** The assembly *)

Lemma assemble_when_all_succeed (W : collaborators)
    (ffmpeg_path input_video output_preview clips_dir : string)
    (duration : Q) (preview_duration clip_length : Z) :
  extraction_succeeds W -> clip_length <> 0 ->
  let n := Py.ceil (inject_Z preview_duration / inject_Z clip_length) in
  let request := request_for ffmpeg_path input_video clips_dir duration n clip_length in
  let join := {| c_ffmpeg := ffmpeg_path; c_list := "concat.txt";
                 c_out := output_preview |} in
  assemble W ffmpeg_path input_video output_preview clips_dir
    duration preview_duration clip_length =
  (map (fun i => Subprocess_extract (request i)) (Py.range n)
   ++ Write_file "concat.txt"
        (map (concat_line W) (map (clip_path_of clips_dir) (Py.range n)))
   :: Subprocess_combine join
   :: match combine_outcome W join with
      | None => [Cleanup clips_dir "concat.txt"]
      | Some _ => []
      end,
   match combine_outcome W join with
   | None => inr tt
   | Some e => inl (RuntimeError [Lit "Failed to combine clips: "; Fmt_cpe e])
   end).
Proof.
  intros HW Hc n request join. unfold assemble.
  rewrite calls_when_all_succeed by assumption. fold n. fold request.
  unfold bind at 1. unfold create_concat_file, combine_clips, cleanup_temp_files.
  fold join. destruct (combine_outcome W join); reflexivity.
Qed.

Lemma range_split (n : Z) (k : nat) :
  (k < Z.to_nat n)%nat ->
  Py.range n = seq 0 k ++ k :: seq (S k) (Z.to_nat n - S k).
Proof.
  intros Hk. unfold Py.range.
  replace (Z.to_nat n) with (k + S (Z.to_nat n - S k))%nat at 1 by lia.
  rewrite seq_app. reflexivity.
Qed.

(** ** Logs *)

Lemma combine_cmds_app (l1 l2 : list event) :
  combine_cmds (l1 ++ l2) = combine_cmds l1 ++ combine_cmds l2.
Proof. unfold combine_cmds. now rewrite flat_map_app. Qed.

Lemma written_lists_app (l1 l2 : list event) :
  written_lists (l1 ++ l2) = written_lists l1 ++ written_lists l2.
Proof. unfold written_lists. now rewrite flat_map_app. Qed.

Lemma combine_cmds_of_requests (g : nat -> extract_cmd) (l : list nat) :
  combine_cmds (map (fun i => Subprocess_extract (g i)) l) = [].
Proof. induction l as [|i l IH]; [reflexivity | exact IH]. Qed.

Lemma written_lists_of_requests (g : nat -> extract_cmd) (l : list nat) :
  written_lists (map (fun i => Subprocess_extract (g i)) l) = [].
Proof. induction l as [|i l IH]; [reflexivity | exact IH]. Qed.

Lemma only_prints_no_calls (log : list event) :
  only_prints log ->
  extract_cmds log = [] /\ combine_cmds log = [] /\ written_lists log = [].
Proof.
  induction 1 as [|ev log [msg ->] _ IH]; [now repeat split|].
  exact IH.
Qed.

(** ** The prompts *)

Section PromptFacts.

Variable B : builtins.

Lemma after_log {A} (ev : event) (r : run A * list string) :
  fst (fst (after ev r)) = ev :: fst (fst r) /\
  snd (fst (after ev r)) = snd (fst r) /\
  snd (after ev r) = snd r.
Proof.
  destruct r as [[log [e | a]] rest]; repeat split.
Qed.

(** Whatever is typed, [get_clip_length] prints messages only, returns
    a value in [1, 60] or raises [EOFError] on exhausted input. *)
Lemma get_clip_length_sound (stdin : list string) :
  only_prints (fst (fst (get_clip_length B stdin))) /\
  match snd (fst (get_clip_length B stdin)) with
  | inr clip_length => 1 <= clip_length <= 60
  | inl e => e = EOFError /\ snd (get_clip_length B stdin) = []
  end.
Proof.
  induction stdin as [|line rest IH].
  - split; [constructor | now split].
  - cbn [get_clip_length].
    destruct (is_empty (str_strip B line)).
    { split; [constructor | simpl; lia]. }
    assert (Hagain : forall msg,
      only_prints (fst (fst (after (Print msg) (get_clip_length B rest)))) /\
      match snd (fst (after (Print msg) (get_clip_length B rest))) with
      | inr clip_length => 1 <= clip_length <= 60
      | inl e => e = EOFError /\
                 snd (after (Print msg) (get_clip_length B rest)) = []
      end).
    { intros msg.
      destruct (after_log (Print msg) (get_clip_length B rest)) as (-> & -> & ->).
      split; [constructor; [now exists msg | apply IH] | apply IH]. }
    destruct (int_of_str B (str_strip B line)) as [v|]; [|apply Hagain].
    destruct ((1 <=? v) && (v <=? 60)) eqn:Hr; [|apply Hagain].
    split; [constructor | simpl; lia].
Qed.

Lemma percentage_in_range_spec (p : Q) :
  percentage_in_range (Finite p) = true <-> (1 <= p)%Q /\ (p <= 50)%Q.
Proof.
  unfold percentage_in_range.
  rewrite andb_true_iff, !Qle_bool_iff. reflexivity.
Qed.

(** Likewise [ask_percentage] returns [percentage / 100] for a
    percentage in [1, 50] only. *)
Lemma ask_percentage_sound (stdin : list string) :
  only_prints (fst (fst (ask_percentage B stdin))) /\
  match snd (fst (ask_percentage B stdin)) with
  | inr fraction =>
      exists percentage, fraction = (percentage / 100)%Q /\
                         (1 <= percentage)%Q /\ (percentage <= 50)%Q
  | inl e => e = EOFError /\ snd (ask_percentage B stdin) = []
  end.
Proof.
  induction stdin as [|line rest IH].
  - split; [constructor | now split].
  - cbn [ask_percentage].
    assert (Hagain : forall msg,
      only_prints (fst (fst (after (Print msg) (ask_percentage B rest)))) /\
      match snd (fst (after (Print msg) (ask_percentage B rest))) with
      | inr fraction =>
          exists percentage, fraction = (percentage / 100)%Q /\
                             (1 <= percentage)%Q /\ (percentage <= 50)%Q
      | inl e => e = EOFError /\
                 snd (after (Print msg) (ask_percentage B rest)) = []
      end).
    { intros msg.
      destruct (after_log (Print msg) (ask_percentage B rest)) as (-> & -> & ->).
      split; [constructor; [now exists msg | apply IH] | apply IH]. }
    destruct (float_of_str B line) as [[p|]|]; try apply Hagain.
    destruct (percentage_in_range (Finite p)) eqn:Hr; [|apply Hagain].
    apply percentage_in_range_spec in Hr.
    split; [constructor | simpl; now exists p].
Qed.

End PromptFacts.

(** ** The whole run *)

Lemma round_zero (x : Q) : (x == 0)%Q -> Py.round x = 0.
Proof.
  intros Hx. pose proof (round_nearest x) as [Hlo Hhi].
  assert (H1 : (inject_Z (-1) < inject_Z (Py.round x))%Q)
    by (change (inject_Z (-1)) with (-1 # 1)%Q; lra).
  assert (H2 : (inject_Z (Py.round x) < inject_Z 1)%Q)
    by (change (inject_Z 1) with 1%Q; lra).
  rewrite <- Zlt_Qlt in H1, H2. lia.
Qed.

(** Once the probe and the two prompts have answered, [main] makes the
    clip directory and assembles; the prompts leave messages only. *)
Lemma main_body_after_prompts (B : builtins) (W : collaborators)
    (ffmpeg_path input_video output_preview timestamp : string)
    (stdin stdin1 stdin2 : list string) (log1 log2 : list event)
    (duration clip_length : Z) (fraction : Q) :
  get_video_duration W ffmpeg_path input_video = ([], inr duration) ->
  get_clip_length B stdin = ((log1, inr clip_length), stdin1) ->
  get_preview_percentage B duration clip_length stdin1
    = ((log2, inr fraction), stdin2) ->
  main_body B W ffmpeg_path input_video output_preview timestamp stdin =
  (log1 ++ log2 ++ Mkdir ("clips_" ++ timestamp)
     :: fst (assemble W ffmpeg_path input_video output_preview
               ("clips_" ++ timestamp) (inject_Z duration)
               (Py.round (inject_Z duration * fraction)) clip_length),
   snd (assemble W ffmpeg_path input_video output_preview
          ("clips_" ++ timestamp) (inject_Z duration)
          (Py.round (inject_Z duration * fraction)) clip_length)).
Proof.
  intros Hprobe Hlen Hpct. unfold main_body.
  rewrite Hprobe, Hlen. unfold bind at 1. unfold bind at 1.
  rewrite Hpct. unfold bind at 1.
  unfold bind at 1. unfold emit.
  destruct (assemble _ _ _ _ _ _ _ _) as [log3 r]. reflexivity.
Qed.

Lemma prompts_accept_in_range (B : builtins) (stdin stdin1 stdin2 : list string)
    (log1 log2 : list event) (duration clip_length : Z) (fraction : Q) :
  get_clip_length B stdin = ((log1, inr clip_length), stdin1) ->
  get_preview_percentage B duration clip_length stdin1
    = ((log2, inr fraction), stdin2) ->
  1 <= clip_length <= 60 /\ only_prints log1 /\ only_prints log2 /\
  exists percentage, fraction = (percentage / 100)%Q /\
                     (1 <= percentage)%Q /\ (percentage <= 50)%Q.
Proof.
  intros Hlen Hpct.
  pose proof (get_clip_length_sound B stdin) as [Hp1 Hv1].
  rewrite Hlen in Hp1, Hv1. simpl in Hp1, Hv1.
  unfold get_preview_percentage in Hpct.
  destruct (Z.eqb_spec clip_length 0) as [-> | _]; [lia|].
  pose proof (ask_percentage_sound B stdin1) as [Hp2 Hv2].
  rewrite Hpct in Hp2, Hv2. simpl in Hp2, Hv2.
  now repeat split.
Qed.

(** C3. When the extraction of clip [k] is the first to fail, with cause
    [e], the assembly makes the calls for clips [0 .. k] and nothing
    else, and raises an error that holds [k] and [e]; [main] prints that
    error and exits with status 1.  No concat list is written and the
    joining call is never made. *)
Theorem first_extraction_failure_aborts (B : builtins) (W : collaborators)
    (ffmpeg_path input_video output_preview timestamp : string)
    (stdin stdin1 stdin2 : list string) (log1 log2 : list event)
    (duration clip_length : Z) (fraction : Q)
    (k : nat) (e : CalledProcessError) :
  let clips_dir := ("clips_" ++ timestamp)%string in
  let preview_duration := Py.round (inject_Z duration * fraction) in
  let n := Py.ceil (inject_Z preview_duration / inject_Z clip_length) in
  let request := request_for ffmpeg_path input_video clips_dir
                   (inject_Z duration) n clip_length in
  let failure := RuntimeError [Lit "Failed to extract clip "; Fmt_nat k;
                               Lit ": "; Fmt_cpe e] in
  let calls := map (fun i => Subprocess_extract (request i)) (seq 0 (S k)) in
  let whole_run := main B W ffmpeg_path input_video output_preview timestamp stdin in
  get_video_duration W ffmpeg_path input_video = ([], inr duration) ->
  get_clip_length B stdin = ((log1, inr clip_length), stdin1) ->
  get_preview_percentage B duration clip_length stdin1
    = ((log2, inr fraction), stdin2) ->
  (k < Z.to_nat n)%nat ->
  (forall i, (i < k)%nat -> extract_outcome W (request i) = None) ->
  extract_outcome W (request k) = Some e ->
  assemble W ffmpeg_path input_video output_preview clips_dir
    (inject_Z duration) preview_duration clip_length = (calls, inl failure) /\
  whole_run = (log1 ++ log2 ++ Mkdir clips_dir :: calls ++ [Print_error failure], 1) /\
  combine_cmds (fst whole_run) = [] /\
  written_lists (fst whole_run) = [].
Proof.
  intros clips_dir preview_duration n request failure calls whole_run
         Hprobe Hlen Hpct Hk Hbefore Hfail.
  destruct (prompts_accept_in_range B stdin stdin1 stdin2 log1 log2 duration
              clip_length fraction Hlen Hpct) as (Hc & Hp1 & Hp2 & _).
  assert (Hasm : assemble W ffmpeg_path input_video output_preview clips_dir
                   (inject_Z duration) preview_duration clip_length
                 = (calls, inl failure)).
  { unfold assemble, create_preview_clips.
    rewrite number_of_clips_of_nonzero by lia. fold n.
    rewrite (range_split n k Hk).
    rewrite (loop_first_failure W ffmpeg_path input_video clips_dir
               (inject_Z duration) n clip_length (seq 0 k) k _ e).
    - unfold bind, calls. rewrite seq_S. reflexivity.
    - intros i Hi. apply Hbefore. apply in_seq in Hi. lia.
    - exact Hfail. }
  assert (Hrun : whole_run =
    (log1 ++ log2 ++ Mkdir clips_dir :: calls ++ [Print_error failure], 1)).
  { unfold whole_run, main.
    rewrite (main_body_after_prompts B W _ _ _ _ _ _ _ _ _ _ _ _ Hprobe Hlen Hpct).
    fold clips_dir. fold preview_duration. rewrite Hasm. simpl fst. simpl snd.
    unfold failure. cbv iota. rewrite <- !app_assoc. reflexivity. }
  split; [exact Hasm|]. split; [exact Hrun|]. rewrite Hrun. cbn [fst].
  destruct (only_prints_no_calls log1 Hp1) as (_ & Hc1 & Hw1).
  destruct (only_prints_no_calls log2 Hp2) as (_ & Hc2 & Hw2).
  split.
  - rewrite !combine_cmds_app, Hc1, Hc2.
    change (Mkdir clips_dir :: calls ++ [Print_error failure])
      with ([Mkdir clips_dir] ++ calls ++ [Print_error failure]).
    rewrite !combine_cmds_app. unfold calls.
    rewrite combine_cmds_of_requests. reflexivity.
  - rewrite !written_lists_app, Hw1, Hw2.
    change (Mkdir clips_dir :: calls ++ [Print_error failure])
      with ([Mkdir clips_dir] ++ calls ++ [Print_error failure]).
    rewrite !written_lists_app. unfold calls.
    rewrite written_lists_of_requests. reflexivity.
Qed.

(** The failure of the specification: clip 2 of 5 fails. *)
Lemma first_extraction_failure_aborts_witness :
  let cause := {| returncode := 1; stderr := "Invalid data" |} in
  let W := failing_at "  Duration: 00:08:20.00, start: 0.0" "clips_T" 2 cause in
  let whole_run := main decimal_builtins W "ffmpeg" "in.mp4" "in sampler.mp4" "T"
                     ["10"%string; "10"%string] in
  snd whole_run = 1 /\
  List.length (extract_cmds (fst whole_run)) = 3%nat /\
  In (Print_error (RuntimeError [Lit "Failed to extract clip "; Fmt_nat 2;
                                 Lit ": "; Fmt_cpe cause])) (fst whole_run) /\
  combine_cmds (fst whole_run) = [].
Proof.
  intros cause W whole_run.
  destruct (first_extraction_failure_aborts decimal_builtins W
              "ffmpeg" "in.mp4" "in sampler.mp4" "T"
              ["10"%string; "10"%string] ["10"%string] []
              [] [] 500 10 (10 / 100) 2 cause)
    as (_ & Hrun & Hjoin & _).
  - reflexivity.
  - reflexivity.
  - reflexivity.
  - vm_compute. lia.
  - intros [|[|i]] Hi; [reflexivity | reflexivity | lia].
  - reflexivity.
  - fold whole_run in Hrun, Hjoin.
    split; [rewrite Hrun; reflexivity|].
    split; [rewrite Hrun; reflexivity|].
    split; [|exact Hjoin].
    rewrite Hrun. simpl. right. right. right. right. left. reflexivity.
Defined.

Lemma plan_is_deterministic_witness :
  schedule (extract_cmds (fst (create_preview_clips obliging "ffmpeg" "a.mp4"
                                 "clips_1" 37 (Py.round (37 * (1 # 2))) 10))) =
  schedule (extract_cmds (fst (create_preview_clips (reporting "") "/opt/ffmpeg"
                                 "b.mp4" "clips_2" 37 (Py.round (37 * (1 # 2))) 10))).
Proof.
  apply (proj1 (plan_is_deterministic obliging (reporting "") "ffmpeg" "/opt/ffmpeg"
                  "a.mp4" "b.mp4" "clips_1" "clips_2" 37 10 (1 # 2)));
    intros cmd; reflexivity.
Defined.

(** ** A source of duration zero *)

(** The claim that a run on a source of duration 0 makes no call fails:
    with ffmpeg reporting [00:00:00.00] the run makes no extraction call
    but still writes a concat list and makes the joining call. *)
Lemma joining_call_made_at_zero_duration :
  let W := reporting "  Duration: 00:00:00.00, start: 0.0" in
  let whole_run := main decimal_builtins W "ffmpeg" "in.mp4" "in sampler.mp4" "T"
                     ["10"%string; "10"%string] in
  get_video_duration W "ffmpeg" "in.mp4" = ([], inr 0) /\
  plan "ffmpeg" "in.mp4" "clips_T" 0 10 (10 / 100) = [] /\
  ~ (extract_cmds (fst whole_run) = [] /\ combine_cmds (fst whole_run) = []).
Proof.
  intros W whole_run. split; [reflexivity|]. split; [reflexivity|].
  intros [_ H]. vm_compute in H. discriminate H.
Qed.

(** C4, as the code has it.  On a source of duration 0 the number of
    clips is 0 and no extraction call is made; the run goes on to write
    an empty concat list and to make the joining call once.  If that call
    succeeds the run cleans up and exits with status 0; if it fails the
    run prints the error and exits with status 1. *)
Theorem zero_duration_run (B : builtins) (W : collaborators)
    (ffmpeg_path input_video output_preview timestamp : string)
    (stdin stdin1 stdin2 : list string) (log1 log2 : list event)
    (clip_length : Z) (fraction : Q) :
  let clips_dir := ("clips_" ++ timestamp)%string in
  let join := {| c_ffmpeg := ffmpeg_path; c_list := "concat.txt";
                 c_out := output_preview |} in
  let whole_run := main B W ffmpeg_path input_video output_preview timestamp stdin in
  get_video_duration W ffmpeg_path input_video = ([], inr 0) ->
  get_clip_length B stdin = ((log1, inr clip_length), stdin1) ->
  get_preview_percentage B 0 clip_length stdin1 = ((log2, inr fraction), stdin2) ->
  clip_count 0 clip_length fraction = 0 /\
  extract_cmds (fst whole_run) = [] /\
  written_lists (fst whole_run) = [[]] /\
  combine_cmds (fst whole_run) = [join] /\
  whole_run =
    match combine_outcome W join with
    | None =>
        (log1 ++ log2 ++ [Mkdir clips_dir; Write_file "concat.txt" [];
                          Subprocess_combine join; Cleanup clips_dir "concat.txt"],
         0)
    | Some e =>
        (log1 ++ log2 ++ [Mkdir clips_dir; Write_file "concat.txt" [];
                          Subprocess_combine join;
                          Print_error (RuntimeError [Lit "Failed to combine clips: ";
                                                     Fmt_cpe e])],
         1)
    end.
Proof.
  intros clips_dir join whole_run Hprobe Hlen Hpct.
  destruct (prompts_accept_in_range B stdin stdin1 stdin2 log1 log2 0
              clip_length fraction Hlen Hpct) as (Hc & Hp1 & Hp2 & _).
  assert (Hpd : Py.round (inject_Z 0 * fraction) = 0)
    by (apply round_zero; ring).
  assert (Hn : Py.ceil (inject_Z 0 / inject_Z clip_length) = 0)
    by (apply ceil_div_zero; lia).
  assert (Hasm : assemble W ffmpeg_path input_video output_preview clips_dir
                   (inject_Z 0) 0 clip_length =
                 match combine_outcome W join with
                 | None => ([Write_file "concat.txt" []; Subprocess_combine join;
                             Cleanup clips_dir "concat.txt"], inr tt)
                 | Some e => ([Write_file "concat.txt" []; Subprocess_combine join],
                              inl (RuntimeError [Lit "Failed to combine clips: ";
                                                 Fmt_cpe e]))
                 end).
  { unfold assemble, create_preview_clips.
    rewrite number_of_clips_of_nonzero by lia. rewrite Hn.
    unfold bind, create_concat_file, combine_clips, cleanup_temp_files, emit.
    cbn. fold join. destruct (combine_outcome W join); reflexivity. }
  assert (Hrun : whole_run =
    match combine_outcome W join with
    | None =>
        (log1 ++ log2 ++ [Mkdir clips_dir; Write_file "concat.txt" [];
                          Subprocess_combine join; Cleanup clips_dir "concat.txt"],
         0)
    | Some e =>
        (log1 ++ log2 ++ [Mkdir clips_dir; Write_file "concat.txt" [];
                          Subprocess_combine join;
                          Print_error (RuntimeError [Lit "Failed to combine clips: ";
                                                     Fmt_cpe e])],
         1)
    end).
  { unfold whole_run, main.
    rewrite (main_body_after_prompts B W _ _ _ _ _ _ _ _ _ _ _ _ Hprobe Hlen Hpct).
    fold clips_dir. rewrite Hpd, Hasm.
    destruct (combine_outcome W join); cbn [fst snd];
      rewrite <- ?app_assoc; reflexivity. }
  destruct (only_prints_no_calls log1 Hp1) as (Hx1 & Hc1 & Hw1).
  destruct (only_prints_no_calls log2 Hp2) as (Hx2 & Hc2 & Hw2).
  split.
  { unfold clip_count. change 0%Q with (inject_Z 0). now rewrite Hpd. }
  rewrite Hrun.
  destruct (combine_outcome W join); cbn [fst];
    rewrite !extract_cmds_app, !written_lists_app, !combine_cmds_app,
            Hx1, Hx2, Hc1, Hc2, Hw1, Hw2;
    repeat split.
Qed.

Lemma zero_duration_run_witness :
  main decimal_builtins (reporting "  Duration: 00:00:00.00, start: 0.0")
    "ffmpeg" "in.mp4" "in sampler.mp4" "T" ["10"%string; "10"%string] =
  ([Mkdir "clips_T"; Write_file "concat.txt" [];
    Subprocess_combine {| c_ffmpeg := "ffmpeg"; c_list := "concat.txt";
                          c_out := "in sampler.mp4" |};
    Cleanup "clips_T" "concat.txt"], 0).
Proof.
  destruct (zero_duration_run decimal_builtins
              (reporting "  Duration: 00:00:00.00, start: 0.0")
              "ffmpeg" "in.mp4" "in sampler.mp4" "T"
              ["10"%string; "10"%string] ["10"%string] [] [] [] 10 (10 / 100))
    as (_ & _ & _ & _ & Hrun).
  - reflexivity.
  - reflexivity.
  - reflexivity.
  - exact Hrun.
Defined.

(** ** Order of extraction and of joining *)

(** C7. When every extraction succeeds, the clips are cut one call at a
    time for the indices [0, 1, ..., n-1] in that order, clip [i] going
    to [clip<i>.mp4]; then one concat list is written, with one line per
    clip in the same order; then the joining call is made once, on that
    list. *)
Theorem clips_are_joined_in_index_order (W : collaborators)
    (ffmpeg_path input_video output_preview clips_dir : string)
    (duration : Q) (preview_duration clip_length : Z) :
  let n := Py.ceil (inject_Z preview_duration / inject_Z clip_length) in
  let request := request_for ffmpeg_path input_video clips_dir duration n clip_length in
  let join := {| c_ffmpeg := ffmpeg_path; c_list := "concat.txt";
                 c_out := output_preview |} in
  let log := fst (assemble W ffmpeg_path input_video output_preview clips_dir
                    duration preview_duration clip_length) in
  extraction_succeeds W ->
  clip_length <> 0 ->
  extract_cmds log = map request (seq 0 (Z.to_nat n)) /\
  map x_out (extract_cmds log) = map (clip_path_of clips_dir) (seq 0 (Z.to_nat n)) /\
  written_lists log = [map (concat_line W) (map x_out (extract_cmds log))] /\
  combine_cmds log = [join] /\
  exists tail,
    log = map Subprocess_extract (extract_cmds log)
          ++ Write_file (c_list join)
               (map (concat_line W) (map x_out (extract_cmds log)))
          :: Subprocess_combine join :: tail.
Proof.
  intros n request join log HW Hc.
  assert (Hlog : log =
    map (fun i => Subprocess_extract (request i)) (Py.range n)
    ++ Write_file "concat.txt"
         (map (concat_line W) (map (clip_path_of clips_dir) (Py.range n)))
    :: Subprocess_combine join
    :: match combine_outcome W join with
       | None => [Cleanup clips_dir "concat.txt"]
       | Some _ => []
       end).
  { unfold log. now rewrite assemble_when_all_succeed. }
  assert (Hcalls : extract_cmds log = map request (Py.range n)).
  { rewrite Hlog, extract_cmds_app, extract_cmds_of_requests.
    destruct (combine_outcome W join); cbn; now rewrite app_nil_r. }
  assert (Hout : map x_out (extract_cmds log)
                 = map (clip_path_of clips_dir) (Py.range n)).
  { rewrite Hcalls, map_map. reflexivity. }
  split; [exact Hcalls|]. split; [exact Hout|].
  rewrite Hout. split; [|split].
  - rewrite Hlog, written_lists_app, written_lists_of_requests.
    destruct (combine_outcome W join); reflexivity.
  - rewrite Hlog, combine_cmds_app, combine_cmds_of_requests.
    destruct (combine_outcome W join); reflexivity.
  - eexists. rewrite Hcalls, map_map. exact Hlog.
Qed.

Lemma clips_are_joined_in_index_order_witness :
  let log := fst (assemble (reporting "") "ffmpeg" "in.mp4" "in sampler.mp4"
                    "clips_T" 600 60 30) in
  map x_out (extract_cmds log) = ["clips_T/clip0.mp4"%string; "clips_T/clip1.mp4"%string] /\
  written_lists log
  = [[("file 'clips_T/clip0.mp4'" ++ newline)%string;
      ("file 'clips_T/clip1.mp4'" ++ newline)%string]].
Proof.
  intros log.
  destruct (clips_are_joined_in_index_order (reporting "") "ffmpeg" "in.mp4"
              "in sampler.mp4" "clips_T" 600 60 30)
    as (_ & Hout & Hlist & _).
  - intros cmd. reflexivity.
  - discriminate.
  - fold log in Hout, Hlist. split.
    + rewrite Hout. reflexivity.
    + rewrite Hlist, Hout. reflexivity.
Defined.

(** ** Validation of the two parameters *)

(** The claim that an entry out of range is answered with an error
    fails: after 61 for the clip length, or 51 for the percentage, the
    prompt prints a message, reads the next entry and returns it. *)
Lemma out_of_range_entry_raises_nothing :
  get_clip_length decimal_builtins ["61"%string; "10"%string] =
    (([Print "Please enter a clip length between 1 and 60 seconds."], inr 10), []) /\
  get_preview_percentage decimal_builtins 600 10 ["51"%string; "50"%string] =
    (([Print "Please enter a percentage between 1 and 50."], inr (50 / 100)%Q), []) /\
  ~ (exists e, snd (fst (get_clip_length decimal_builtins
                           ["61"%string; "10"%string])) = inl e).
Proof.
  split; [reflexivity|]. split; [reflexivity|].
  intros [e He]. discriminate He.
Qed.

Lemma get_video_duration_log (W : collaborators) (ffmpeg_path video_path : string) :
  fst (get_video_duration W ffmpeg_path video_path) = [].
Proof.
  unfold get_video_duration.
  destruct (re_search _) as [[[h m] s]|]; reflexivity.
Qed.

Lemma fraction_bounds (percentage : Q) :
  (1 <= percentage)%Q -> (percentage <= 50)%Q ->
  (1 # 100 <= percentage / 100)%Q /\ (percentage / 100 <= 1 # 2)%Q.
Proof.
  intros Hlo Hhi. unfold Qdiv. change (/ 100)%Q with (1 # 100)%Q. split; lra.
Qed.

(** A run that makes any call to ffmpeg for a clip or for the joining has
    first had both prompts return a value. *)
Lemma calls_need_accepted_parameters (B : builtins) (W : collaborators)
    (ffmpeg_path input_video output_preview timestamp : string)
    (stdin : list string) :
  let log := fst (main B W ffmpeg_path input_video output_preview timestamp stdin) in
  extract_cmds log <> [] \/ combine_cmds log <> [] ->
  exists duration log1 clip_length stdin1 log2 fraction stdin2,
    get_video_duration W ffmpeg_path input_video = ([], inr duration) /\
    get_clip_length B stdin = ((log1, inr clip_length), stdin1) /\
    get_preview_percentage B duration clip_length stdin1
      = ((log2, inr fraction), stdin2).
Proof.
  intros log Hcalls.
  pose proof (get_video_duration_log W ffmpeg_path input_video) as Hplog.
  destruct (get_video_duration W ffmpeg_path input_video) as [plog [e | duration]] eqn:Hprobe;
    simpl in Hplog; subst plog.
  { exfalso. unfold log, main, main_body in Hcalls. rewrite Hprobe in Hcalls.
    cbn in Hcalls. destruct Hcalls as [H | H]; now apply H. }
  pose proof (get_clip_length_sound B stdin) as [Hp1 _].
  destruct (get_clip_length B stdin) as [[log1 [e | clip_length]] stdin1] eqn:Hlen;
    simpl in Hp1.
  { exfalso. unfold log, main, main_body in Hcalls. rewrite Hprobe, Hlen in Hcalls.
    cbn [bind fst snd app] in Hcalls.
    destruct (only_prints_no_calls log1 Hp1) as (Hx & Hc & _).
    rewrite extract_cmds_app, combine_cmds_app, Hx, Hc in Hcalls.
    destruct Hcalls as [H | H]; now apply H. }
  destruct (get_preview_percentage B duration clip_length stdin1)
    as [[log2 [e | fraction]] stdin2] eqn:Hpct.
  { exfalso.
    assert (Hp2 : only_prints log2).
    { unfold get_preview_percentage in Hpct.
      destruct (clip_length =? 0).
      - injection Hpct as <- _ _. constructor.
      - pose proof (ask_percentage_sound B stdin1) as [H _].
        now rewrite Hpct in H. }
    unfold log, main, main_body in Hcalls. rewrite Hprobe, Hlen in Hcalls.
    cbn [bind fst snd app] in Hcalls. rewrite Hpct in Hcalls.
    cbn [bind fst snd app] in Hcalls.
    destruct (only_prints_no_calls log1 Hp1) as (Hx1 & Hc1 & _).
    destruct (only_prints_no_calls log2 Hp2) as (Hx2 & Hc2 & _).
    rewrite !extract_cmds_app, !combine_cmds_app, Hx1, Hc1, Hx2, Hc2 in Hcalls.
    destruct Hcalls as [H | H]; now apply H. }
  now exists duration, log1, clip_length, stdin1, log2, fraction, stdin2.
Qed.

(** C5, as the code has it.  A clip length outside [1, 60] and a
    percentage outside [1, 50] (a fraction outside [0.01, 0.50]) are
    never returned by the prompts: such an entry raises nothing, it is
    answered with a message and the prompt reads the next entry; the only
    error of a prompt is the end of the input.  A percentage of 50 is
    returned as the fraction 50/100 and 51 is asked again.  No call that
    cuts or joins clips is made before both prompts have returned, with a
    clip length in [1, 60] and a fraction in [0.01, 0.50]. *)
Theorem validation_asks_again (B : builtins) :
  (forall stdin,
     match snd (fst (get_clip_length B stdin)) with
     | inr clip_length => 1 <= clip_length <= 60
     | inl e => e = EOFError
     end) /\
  (forall duration clip_length stdin, clip_length <> 0 ->
     match snd (fst (get_preview_percentage B duration clip_length stdin)) with
     | inr fraction => (1 # 100 <= fraction)%Q /\ (fraction <= 1 # 2)%Q
     | inl e => e = EOFError
     end) /\
  (forall line rest v,
     is_empty (str_strip B line) = false ->
     int_of_str B (str_strip B line) = Some v ->
     v < 1 \/ 60 < v ->
     get_clip_length B (line :: rest) =
     after (Print "Please enter a clip length between 1 and 60 seconds.")
           (get_clip_length B rest)) /\
  (forall duration clip_length line rest percentage, clip_length <> 0 ->
     float_of_str B line = Some (Finite percentage) ->
     (percentage < 1)%Q \/ (50 < percentage)%Q ->
     get_preview_percentage B duration clip_length (line :: rest) =
     after (Print "Please enter a percentage between 1 and 50.")
           (get_preview_percentage B duration clip_length rest)) /\
  (forall duration clip_length line rest, clip_length <> 0 ->
     float_of_str B line = Some (Finite 50) ->
     get_preview_percentage B duration clip_length (line :: rest) =
     (ret (50 / 100)%Q, rest)) /\
  (forall duration clip_length line rest, clip_length <> 0 ->
     float_of_str B line = Some (Finite 51) ->
     get_preview_percentage B duration clip_length (line :: rest) =
     after (Print "Please enter a percentage between 1 and 50.")
           (get_preview_percentage B duration clip_length rest)) /\
  (forall W ffmpeg_path input_video output_preview timestamp stdin,
     let log := fst (main B W ffmpeg_path input_video output_preview timestamp stdin) in
     extract_cmds log <> [] \/ combine_cmds log <> [] ->
     exists duration log1 clip_length stdin1 log2 fraction stdin2,
       get_video_duration W ffmpeg_path input_video = ([], inr duration) /\
       get_clip_length B stdin = ((log1, inr clip_length), stdin1) /\
       get_preview_percentage B duration clip_length stdin1
         = ((log2, inr fraction), stdin2) /\
       1 <= clip_length <= 60 /\
       (1 # 100 <= fraction)%Q /\ (fraction <= 1 # 2)%Q).
Proof.
  assert (Hreject : forall duration clip_length line rest percentage,
    clip_length <> 0 ->
    float_of_str B line = Some (Finite percentage) ->
    (percentage < 1)%Q \/ (50 < percentage)%Q ->
    get_preview_percentage B duration clip_length (line :: rest) =
    after (Print "Please enter a percentage between 1 and 50.")
          (get_preview_percentage B duration clip_length rest)).
  { intros duration clip_length line rest p Hc Hparse Hout.
    unfold get_preview_percentage.
    destruct (Z.eqb_spec clip_length 0); [contradiction|].
    cbn [ask_percentage]. rewrite Hparse.
    destruct (percentage_in_range (Finite p)) eqn:Hr; [|reflexivity].
    apply percentage_in_range_spec in Hr. lra. }
  split; [|split; [|split; [|split; [|split; [|split]]]]].
  - intros stdin. pose proof (get_clip_length_sound B stdin) as [_ H].
    destruct (snd (fst (get_clip_length B stdin))); [apply H | exact H].
  - intros duration clip_length stdin Hc. unfold get_preview_percentage.
    destruct (Z.eqb_spec clip_length 0); [contradiction|].
    pose proof (ask_percentage_sound B stdin) as [_ H].
    destruct (snd (fst (ask_percentage B stdin))); [apply H|].
    destruct H as (p & -> & Hlo & Hhi). now apply fraction_bounds.
  - intros line rest v Hne Hparse Hout. cbn [get_clip_length].
    rewrite Hne, Hparse.
    destruct ((1 <=? v) && (v <=? 60)) eqn:Hr; [lia | reflexivity].
  - exact Hreject.
  - intros duration clip_length line rest Hc Hparse.
    unfold get_preview_percentage.
    destruct (Z.eqb_spec clip_length 0); [contradiction|].
    cbn [ask_percentage]. rewrite Hparse. reflexivity.
  - intros duration clip_length line rest Hc Hparse.
    apply Hreject with (percentage := 51%Q); [assumption | assumption |].
    right. reflexivity.
  - intros W ffmpeg_path input_video output_preview timestamp stdin log Hcalls.
    destruct (calls_need_accepted_parameters B W ffmpeg_path input_video
                output_preview timestamp stdin Hcalls)
      as (duration & log1 & clip_length & stdin1 & log2 & fraction & stdin2
          & Hprobe & Hlen & Hpct).
    exists duration, log1, clip_length, stdin1, log2, fraction, stdin2.
    destruct (prompts_accept_in_range B stdin stdin1 stdin2 log1 log2 duration
                clip_length fraction Hlen Hpct) as (Hc & _ & _ & p & -> & Hlo & Hhi).
    destruct (fraction_bounds p Hlo Hhi). now repeat split.
Qed.

Lemma validation_asks_again_witness :
  get_clip_length decimal_builtins ["61"%string; "10"%string] =
    after (Print "Please enter a clip length between 1 and 60 seconds.")
          (get_clip_length decimal_builtins ["10"%string]) /\
  get_preview_percentage decimal_builtins 600 10 ["51"%string; "50"%string] =
    after (Print "Please enter a percentage between 1 and 50.")
          (get_preview_percentage decimal_builtins 600 10 ["50"%string]) /\
  get_preview_percentage decimal_builtins 600 10 ["50"%string] =
    (ret (50 / 100)%Q, []).
Proof.
  destruct (validation_asks_again decimal_builtins)
    as (_ & _ & Hlen & _ & Haccept & Hreject & _).
  split; [|split].
  - apply (Hlen "61"%string ["10"%string] 61); [reflexivity | reflexivity | lia].
  - apply (Hreject 600 10 "51"%string ["50"%string]); [discriminate | reflexivity].
  - apply (Haccept 600 10 "50"%string []); [discriminate | reflexivity].
Defined.

(** ** The duration probe *)

Section Probe.

Local Open Scope string_scope.


Lemma span_digits_app (ds rest : string) :
  digits_only ds = true -> starts_with_digit rest = false ->
  span_digits (ds ++ rest) = (ds, rest).
Proof.
  intros Hds Hrest. induction ds as [|c ds IH].
  - destruct rest as [|d rest]; [reflexivity|].
    simpl in *. now rewrite Hrest.
  - simpl in *. apply andb_true_iff in Hds as [Hc Hds].
    now rewrite Hc, IH.
Qed.





End Probe.















(** * Further properties of the code *)

(** ** Decimal numerals *)

Lemma string_of_uint_digits (d : Decimal.uint) :
  digits_only (NilEmpty.string_of_uint d) = true.
Proof. induction d; simpl; auto. Qed.

Lemma str_nat_digits (i : nat) : digits_only (Py.str_nat i) = true.
Proof. apply string_of_uint_digits. Qed.

Lemma str_nat_inj (i j : nat) : Py.str_nat i = Py.str_nat j -> i = j.
Proof.
  unfold Py.str_nat. intros H.
  apply (f_equal NilEmpty.uint_of_string) in H.
  rewrite !NilEmpty.usu in H. injection H as H.
  now apply Unsigned.to_uint_inj.
Qed.


Lemma append_inj_l (p s1 s2 : string) :
  (p ++ s1)%string = (p ++ s2)%string -> s1 = s2.
Proof.
  induction p as [|c p IH]; simpl; [auto|].
  intros H. injection H as H. auto.
Qed.

(** Different indices give different clip files. *)
Lemma clip_path_of_inj (clips_dir : string) (i j : nat) :
  clip_path_of clips_dir i = clip_path_of clips_dir j -> i = j.
Proof.
  unfold clip_path_of, path_join. intros H.
  apply append_inj_l in H.
  change ("/" ++ "clip" ++ Py.str_nat i ++ ".mp4")%string
    with ("/clip" ++ (Py.str_nat i ++ ".mp4"))%string in H.
  change ("/" ++ "clip" ++ Py.str_nat j ++ ".mp4")%string
    with ("/clip" ++ (Py.str_nat j ++ ".mp4"))%string in H.
  apply append_inj_l in H.
  apply (f_equal span_digits) in H.
  rewrite !span_digits_app in H by (apply str_nat_digits || reflexivity).
  injection H as H. now apply str_nat_inj.
Qed.

Lemma NoDup_firstn {A} (m : nat) (l : list A) : NoDup l -> NoDup (firstn m l).
Proof.
  revert l. induction m as [|m IH]; intros [|x l] H; simpl; try constructor.
  - inversion H as [|? ? Hx Hl]; subst. intros Hin. apply Hx.
    now apply In_firstn in Hin.
  - inversion H; subst. now apply IH.
Qed.

(** X1. Whatever the collaborators answer, the extraction calls of one
    run write to pairwise different files: no clip overwrites another. *)
Theorem clip_files_are_distinct (W : collaborators)
    (ffmpeg_path input_video clips_dir : string)
    (duration : Q) (preview_duration clip_length : Z) :
  NoDup (map x_out
           (extract_cmds (fst (create_preview_clips W ffmpeg_path input_video
                                 clips_dir duration preview_duration clip_length)))).
Proof.
  destruct (calls_prefix W ffmpeg_path input_video clips_dir duration
              preview_duration clip_length) as [m ->].
  rewrite <- firstn_map, map_map. cbn [x_out request_for].
  apply NoDup_firstn.
  apply NoDup_map_NoDup_ForallPairs; [|apply seq_NoDup].
  intros i j _ _. apply clip_path_of_inj.
Qed.

(** ** Fail-fast extraction *)

(** Either no index of the loop fails, or there is a first one that
    does. *)
Lemma first_failure_or_none (W : collaborators) (request : nat -> extract_cmd)
    (indices : list nat) :
  (forall i, In i indices -> extract_outcome W (request i) = None) \/
  exists before k later cause,
    indices = before ++ k :: later /\
    (forall i, In i before -> extract_outcome W (request i) = None) /\
    extract_outcome W (request k) = Some cause.
Proof.
  induction indices as [|i indices IH].
  - left. intros i [].
  - destruct (extract_outcome W (request i)) as [cause|] eqn:Hi.
    + right. exists [], i, indices, cause. repeat split; [intros j []|assumption].
    + destruct IH as [Hall | (before & k & later & cause & -> & Hbefore & Hk)].
      * left. intros j [<- | Hj]; auto.
      * right. exists (i :: before), k, later, cause.
        repeat split; [|assumption]. intros j [<- | Hj]; auto.
Qed.

(** X2. The extraction loop stops at the first failure: in any run every
    call but the last has succeeded.  When the function returns, every
    call has succeeded and the paths returned are the output files of
    the calls, in order; when it raises, either the clip length was 0
    and no call was made, or the last call is the one that failed and
    the error names its index and its cause. *)
Theorem extraction_stops_at_first_failure (W : collaborators)
    (ffmpeg_path input_video clips_dir : string)
    (duration : Q) (preview_duration clip_length : Z) :
  let outcome := create_preview_clips W ffmpeg_path input_video clips_dir
                   duration preview_duration clip_length in
  let cmds := extract_cmds (fst outcome) in
  Forall (fun cmd => extract_outcome W cmd = None) (removelast cmds) /\
  match snd outcome with
  | inr clip_paths =>
      Forall (fun cmd => extract_outcome W cmd = None) cmds /\
      clip_paths = map x_out cmds
  | inl e =>
      (e = ZeroDivisionError /\ clip_length = 0 /\ cmds = []) \/
      exists cmd k cause,
        cmds = removelast cmds ++ [cmd] /\
        x_out cmd = clip_path_of clips_dir k /\
        extract_outcome W cmd = Some cause /\
        e = RuntimeError [Lit "Failed to extract clip "; Fmt_nat k;
                          Lit ": "; Fmt_cpe cause]
  end.
Proof.
  intros outcome cmds. subst cmds outcome.
  unfold create_preview_clips, number_of_clips_of.
  destruct (Z.eqb_spec clip_length 0) as [Hc | Hc].
  { cbn. split; [constructor | left; now repeat split]. }
  set (n := Py.ceil (inject_Z preview_duration / inject_Z clip_length)).
  set (request := request_for ffmpeg_path input_video clips_dir duration n clip_length).
  destruct (first_failure_or_none W request (Py.range n))
    as [Hall | (before & k & later & cause & Hsplit & Hbefore & Hk)].
  - rewrite loop_all_succeed by exact Hall. cbn [fst snd].
    rewrite extract_cmds_of_requests.
    assert (Hok : Forall (fun cmd => extract_outcome W cmd = None)
                    (map request (Py.range n))).
    { apply Forall_forall. intros cmd Hin. apply in_map_iff in Hin.
      destruct Hin as (i & <- & Hi). now apply Hall. }
    split; [|split; [exact Hok | now rewrite map_map]].
    rewrite removelast_firstn_len. apply Forall_forall.
    intros cmd Hin. apply In_firstn in Hin.
    rewrite Forall_forall in Hok. now apply Hok.
  - rewrite Hsplit.
    rewrite (loop_first_failure W ffmpeg_path input_video clips_dir duration n
               clip_length before k later cause [] Hbefore Hk).
    cbn [fst snd]. rewrite extract_cmds_of_requests, map_app. cbn [map].
    rewrite removelast_last. split.
    + apply Forall_forall. intros cmd Hin. apply in_map_iff in Hin.
      destruct Hin as (i & <- & Hi). now apply Hbefore.
    + right. exists (request k), k, cause. now repeat split.
Qed.

(** ** The shapes of a run *)

Lemma seq_split_inv (a n : nat) (l1 l2 : list nat) (k : nat) :
  seq a n = l1 ++ k :: l2 ->
  k = (a + List.length l1)%nat /\ l1 = seq a (List.length l1) /\
  (List.length l1 < n)%nat.
Proof.
  revert a n. induction l1 as [|x l1 IH]; intros a n H.
  - destruct n as [|n]; [discriminate|]. simpl in H. injection H as <- _.
    simpl. repeat split; lia.
  - destruct n as [|n]; [discriminate|]. simpl in H. injection H as <- H.
    destruct (IH _ _ H) as (-> & Hl1 & Hlen). simpl.
    repeat split; [lia | now rewrite <- Hl1 | lia].
Qed.

(** The three ways an assembly can go. *)
Lemma assemble_shape (W : collaborators)
    (ffmpeg_path input_video output_preview clips_dir : string)
    (duration : Q) (preview_duration clip_length : Z) :
  clip_length <> 0 ->
  let n := Py.ceil (inject_Z preview_duration / inject_Z clip_length) in
  let request := request_for ffmpeg_path input_video clips_dir duration n clip_length in
  let join := {| c_ffmpeg := ffmpeg_path; c_list := "concat.txt";
                 c_out := output_preview |} in
  let listing := Write_file "concat.txt"
                   (map (concat_line W) (map (clip_path_of clips_dir) (Py.range n))) in
  let outcome := assemble W ffmpeg_path input_video output_preview clips_dir
                   duration preview_duration clip_length in
  ((forall i, In i (Py.range n) -> extract_outcome W (request i) = None) /\
   combine_outcome W join = None /\
   outcome = (map (fun i => Subprocess_extract (request i)) (Py.range n)
              ++ [listing; Subprocess_combine join; Cleanup clips_dir "concat.txt"],
              inr tt)) \/
  (exists cause,
     (forall i, In i (Py.range n) -> extract_outcome W (request i) = None) /\
     combine_outcome W join = Some cause /\
     outcome = (map (fun i => Subprocess_extract (request i)) (Py.range n)
                ++ [listing; Subprocess_combine join],
                inl (RuntimeError [Lit "Failed to combine clips: "; Fmt_cpe cause]))) \/
  (exists k cause,
     (k < Z.to_nat n)%nat /\
     (forall i, (i < k)%nat -> extract_outcome W (request i) = None) /\
     extract_outcome W (request k) = Some cause /\
     outcome = (map (fun i => Subprocess_extract (request i)) (seq 0 (S k)),
                inl (RuntimeError [Lit "Failed to extract clip "; Fmt_nat k;
                                   Lit ": "; Fmt_cpe cause]))).
Proof.
  intros Hc n request join listing outcome. subst outcome.
  unfold assemble, create_preview_clips.
  rewrite number_of_clips_of_nonzero by assumption. fold n.
  destruct (first_failure_or_none W request (Py.range n))
    as [Hall | (before & k & later & cause & Hsplit & Hbefore & Hk)].
  - rewrite loop_all_succeed by exact Hall.
    unfold bind at 1. unfold create_concat_file, combine_clips, cleanup_temp_files.
    fold join. cbn [app]. fold listing.
    destruct (combine_outcome W join) as [cause|] eqn:Hjoin.
    + right. left. exists cause. split; [assumption|]. split; reflexivity.
    + left. split; [assumption|]. split; reflexivity.
  - right. right.
    destruct (seq_split_inv 0 (Z.to_nat n) before later k Hsplit) as (Hk0 & Hb & Hlen).
    simpl in Hk0. subst k. exists (List.length before), cause.
    split; [exact Hlen|]. split.
    { intros i Hi. apply Hbefore. rewrite Hb. apply in_seq. lia. }
    split; [exact Hk|].
    rewrite Hsplit.
    rewrite (loop_first_failure W ffmpeg_path input_video clips_dir duration n
               clip_length before _ later cause [] Hbefore Hk).
    unfold bind. rewrite seq_S, <- Hb. reflexivity.
Qed.

(** Every run of [main] stops at the probe, at a prompt, or goes on to
    the assembly. *)
Lemma main_shape (B : builtins) (W : collaborators)
    (ffmpeg_path input_video output_preview timestamp : string)
    (stdin : list string) :
  let whole_run := main B W ffmpeg_path input_video output_preview timestamp stdin in
  whole_run = ([Print_error (ValueError "Could not parse video duration")], 1) \/
  (exists log, only_prints log /\ whole_run = (log ++ [Print_error EOFError], 1)) \/
  (exists duration clip_length fraction log1 log2 stdin1 stdin2,
     get_video_duration W ffmpeg_path input_video = ([], inr duration) /\
     get_clip_length B stdin = ((log1, inr clip_length), stdin1) /\
     get_preview_percentage B duration clip_length stdin1
       = ((log2, inr fraction), stdin2) /\
     let outcome := assemble W ffmpeg_path input_video output_preview
                      ("clips_" ++ timestamp) (inject_Z duration)
                      (Py.round (inject_Z duration * fraction)) clip_length in
     whole_run =
     (log1 ++ log2 ++ Mkdir ("clips_" ++ timestamp) :: fst outcome
        ++ match snd outcome with inl e => [Print_error e] | inr _ => [] end,
      match snd outcome with inl _ => 1 | inr _ => 0 end)).
Proof.
  intros whole_run. subst whole_run.
  pose proof (get_video_duration_log W ffmpeg_path input_video) as Hplog.
  destruct (get_video_duration W ffmpeg_path input_video)
    as [plog [e | duration]] eqn:Hprobe; simpl in Hplog; subst plog.
  { left. unfold main, main_body. rewrite Hprobe. cbn.
    unfold get_video_duration in Hprobe.
    destruct (re_search _) as [[[h m] s]|]; [discriminate|].
    now injection Hprobe as <-. }
  right.
  pose proof (get_clip_length_sound B stdin) as [Hp1 Hv1].
  destruct (get_clip_length B stdin) as [[log1 [e | clip_length]] stdin1] eqn:Hlen;
    simpl in Hp1, Hv1.
  { left. exists log1. split; [assumption|]. destruct Hv1 as [-> _].
    unfold main, main_body. rewrite Hprobe, Hlen. reflexivity. }
  destruct (get_preview_percentage B duration clip_length stdin1)
    as [[log2 [e | fraction]] stdin2] eqn:Hpct.
  { left. exists (log1 ++ log2).
    unfold get_preview_percentage in Hpct.
    destruct (Z.eqb_spec clip_length 0) as [-> | _]; [lia|].
    pose proof (ask_percentage_sound B stdin1) as [Hp2 Hv2].
    rewrite Hpct in Hp2, Hv2. simpl in Hp2, Hv2. destruct Hv2 as [-> _].
    split; [apply Forall_app; now split|].
    unfold main, main_body. rewrite Hprobe, Hlen. cbn [bind fst snd app].
    unfold get_preview_percentage.
    destruct (Z.eqb_spec clip_length 0) as [-> | _]; [lia|].
    rewrite Hpct. reflexivity. }
  right. exists duration, clip_length, fraction, log1, log2, stdin1, stdin2.
  split; [reflexivity|]. split; [reflexivity|]. split; [exact Hpct|].
  intros outcome. unfold main.
  rewrite (main_body_after_prompts B W _ _ _ _ _ _ _ _ _ _ _ _ Hprobe Hlen Hpct).
  fold outcome. destruct (snd outcome).
  - rewrite <- !app_assoc. reflexivity.
  - rewrite app_nil_r. reflexivity.
Qed.

Local Abbreviation calm :=
  (fun ev : event =>
     match ev with Print_error _ | Cleanup _ _ => False | _ => True end).

Local Abbreviation known_error :=
  (fun e : exn =>
     e = ValueError "Could not parse video duration" \/
     e = EOFError \/
     (exists k cause, e = RuntimeError [Lit "Failed to extract clip "; Fmt_nat k;
                                        Lit ": "; Fmt_cpe cause]) \/
     (exists cause, e = RuntimeError [Lit "Failed to combine clips: ";
                                      Fmt_cpe cause])).

Lemma tail_assoc {A} (l1 l2 l3 : list A) (x y : A) :
  l1 ++ l2 ++ x :: l3 ++ [y] = (l1 ++ l2 ++ x :: l3) ++ [y].
Proof. rewrite <- !app_assoc. reflexivity. Qed.

Lemma only_prints_calm (log : list event) : only_prints log -> Forall calm log.
Proof.
  intros H. eapply Forall_impl; [|exact H]. intros ev [msg ->]. exact I.
Qed.

Lemma requests_calm (g : nat -> extract_cmd) (l : list nat) :
  Forall calm (map (fun i => Subprocess_extract (g i)) l).
Proof. apply Forall_forall. intros ev Hin. apply in_map_iff in Hin as (i & <- & _). exact I. Qed.

(** A run ends with one error line and status 1, or with the whole
    pipeline done and status 0. *)
Lemma main_outcomes (B : builtins) (W : collaborators)
    (ffmpeg_path input_video output_preview timestamp : string)
    (stdin : list string) :
  let whole_run := main B W ffmpeg_path input_video output_preview timestamp stdin in
  (exists before e,
     whole_run = (before ++ [Print_error e], 1) /\
     Forall calm before /\ known_error e) \/
  (exists duration clip_length fraction log1 log2 stdin1 stdin2,
     get_video_duration W ffmpeg_path input_video = ([], inr duration) /\
     get_clip_length B stdin = ((log1, inr clip_length), stdin1) /\
     get_preview_percentage B duration clip_length stdin1
       = ((log2, inr fraction), stdin2) /\
     let clips_dir := ("clips_" ++ timestamp)%string in
     let the_plan := plan ffmpeg_path input_video clips_dir
                       (inject_Z duration) clip_length fraction in
     let join := {| c_ffmpeg := ffmpeg_path; c_list := "concat.txt";
                    c_out := output_preview |} in
     Forall (fun cmd => extract_outcome W cmd = None) the_plan /\
     combine_outcome W join = None /\
     whole_run =
     (log1 ++ log2 ++ Mkdir clips_dir :: map Subprocess_extract the_plan
        ++ [Write_file "concat.txt" (map (concat_line W) (map x_out the_plan));
            Subprocess_combine join; Cleanup clips_dir "concat.txt"],
      0)).
Proof.
  intros whole_run.
  destruct (main_shape B W ffmpeg_path input_video output_preview timestamp stdin)
    as [Hrun | [(log & Hlog & Hrun) |
        (duration & clip_length & fraction & log1 & log2 & stdin1 & stdin2
         & Hprobe & Hlen & Hpct & Hrun)]]; fold whole_run in Hrun.
  - left. exists [], (ValueError "Could not parse video duration").
    split; [exact Hrun|]. split; [constructor | now left].
  - left. exists log, EOFError.
    split; [exact Hrun|]. split; [now apply only_prints_calm | right; now left].
  - destruct (prompts_accept_in_range B stdin stdin1 stdin2 log1 log2 duration
                clip_length fraction Hlen Hpct) as (Hc & Hp1 & Hp2 & _).
    cbv zeta in Hrun.
    destruct (assemble_shape W ffmpeg_path input_video output_preview
                ("clips_" ++ timestamp) (inject_Z duration)
                (Py.round (inject_Z duration * fraction)) clip_length ltac:(lia))
      as [(Hall & Hjoin & Hasm) | [(cause & Hall & Hjoin & Hasm) |
          (k & cause & Hk & Hbefore & Hfail & Hasm)]];
      rewrite Hasm in Hrun; cbn [fst snd] in Hrun.
    + right. exists duration, clip_length, fraction, log1, log2, stdin1, stdin2.
      split; [exact Hprobe|]. split; [exact Hlen|]. split; [exact Hpct|].
      intros clips_dir the_plan join.
      assert (Hplan : the_plan =
                map (request_for ffmpeg_path input_video clips_dir (inject_Z duration)
                       (Py.ceil (inject_Z (Py.round (inject_Z duration * fraction))
                                 / inject_Z clip_length)) clip_length)
                    (Py.range (Py.ceil (inject_Z (Py.round (inject_Z duration * fraction))
                                        / inject_Z clip_length))))
        by (apply plan_eq; lia).
      split; [|split; [exact Hjoin|]].
      * rewrite Hplan. apply Forall_forall. intros cmd Hin.
        apply in_map_iff in Hin as (i & <- & Hi). now apply Hall.
      * rewrite Hrun, Hplan, !map_map, app_nil_r. reflexivity.
    + left. rewrite tail_assoc in Hrun. eexists. eexists.
      split; [exact Hrun|]. split.
      * apply Forall_app. split; [now apply only_prints_calm|].
        apply Forall_app. split; [now apply only_prints_calm|].
        constructor; [exact I|].
        apply Forall_app. split; [apply requests_calm|].
        repeat constructor.
      * right. right. right. now exists cause.
    + left. rewrite tail_assoc in Hrun. eexists. eexists.
      split; [exact Hrun|]. split.
      * apply Forall_app. split; [now apply only_prints_calm|].
        apply Forall_app. split; [now apply only_prints_calm|].
        constructor; [exact I|]. apply requests_calm.
      * right. right. left. now exists k, cause.
Qed.


Lemma calm_has_no_cleanup (log : list event) (a b : string) :
  Forall calm log -> ~ In (Cleanup a b) log.
Proof.
  intros H Hin. rewrite Forall_forall in H. exact (H _ Hin).
Qed.





(** X5. The cleanup of the temporary clips runs only at the end of a run
    that ends with status 0.  Every run that fails leaves them behind: a
    run that made the clip directory and ended with status 1 never
    cleans it up. *)
Theorem cleanup_only_on_success (B : builtins) (W : collaborators)
    (ffmpeg_path input_video output_preview timestamp : string)
    (stdin : list string) :
  let whole_run := main B W ffmpeg_path input_video output_preview timestamp stdin in
  ((exists clips_dir concat_file, In (Cleanup clips_dir concat_file) (fst whole_run))
   <-> snd whole_run = 0) /\
  (snd whole_run = 1 ->
   forall clips_dir concat_file, ~ In (Cleanup clips_dir concat_file) (fst whole_run)).
Proof.
  intros whole_run.
  destruct (main_outcomes B W ffmpeg_path input_video output_preview timestamp stdin)
    as [(before & e & Hrun & Hcalm & _) |
        (duration & clip_length & fraction & log1 & log2 & stdin1 & stdin2
         & _ & _ & _ & _ & _ & Hrun)];
    fold whole_run in Hrun; rewrite Hrun; cbn [fst snd].
  - assert (Hnone : forall a b, ~ In (Cleanup a b) (before ++ [Print_error e])).
    { intros a b Hin. apply in_app_or in Hin as [Hin | [Hin | []]].
      - now apply calm_has_no_cleanup in Hin.
      - discriminate Hin. }
    split; [|intros _; exact Hnone].
    split; [|discriminate].
    intros (a & b & Hin). exfalso. exact (Hnone a b Hin).
  - split; [|discriminate]. split; [reflexivity|]. intros _.
    exists ("clips_" ++ timestamp)%string, "concat.txt"%string.
    apply in_or_app. right. apply in_or_app. right. right.
    apply in_or_app. right. right. right. now left.
Qed.

Lemma cleanup_only_on_success_witness :
  let whole_run := main decimal_builtins
                     (failing_at "  Duration: 00:08:20.00, start: 0.0" "clips_T" 2
                        {| returncode := 1; stderr := "Invalid data" |})
                     "ffmpeg" "in.mp4" "in sampler.mp4" "T"
                     ["10"%string; "10"%string] in
  In (Mkdir "clips_T") (fst whole_run) /\
  ~ In (Cleanup "clips_T" "concat.txt") (fst whole_run).
Proof.
  intros whole_run. split.
  - simpl. now left.
  - apply (proj2 (cleanup_only_on_success decimal_builtins
                    (failing_at "  Duration: 00:08:20.00, start: 0.0" "clips_T" 2
                       {| returncode := 1; stderr := "Invalid data" |})
                    "ffmpeg" "in.mp4" "in sampler.mp4" "T"
                    ["10"%string; "10"%string])).
    reflexivity.
Defined.

(** ** How the prompts use their input *)

(** X6. A prompt reads its input line by line and prints exactly one
    message per rejected line.  When it returns, the input was some
    rejected lines, then the accepted line (an empty clip length stands
    for 10), and the lines after it are left unread; when it raises,
    every line was rejected and the input is used up. *)
Theorem prompts_read_one_line_per_entry (B : builtins) :
  (forall stdin log clip_length rest,
     get_clip_length B stdin = ((log, inr clip_length), rest) ->
     exists rejected accepted,
       stdin = rejected ++ accepted :: rest /\
       List.length log = List.length rejected /\
       (if is_empty (str_strip B accepted) then clip_length = 10
        else int_of_str B (str_strip B accepted) = Some clip_length)) /\
  (forall stdin log e rest,
     get_clip_length B stdin = ((log, inl e), rest) ->
     rest = [] /\ List.length log = List.length stdin) /\
  (forall duration clip_length stdin log fraction rest,
     get_preview_percentage B duration clip_length stdin = ((log, inr fraction), rest) ->
     exists rejected accepted percentage,
       stdin = rejected ++ accepted :: rest /\
       List.length log = List.length rejected /\
       float_of_str B accepted = Some (Finite percentage) /\
       fraction = (percentage / 100)%Q) /\
  (forall duration clip_length stdin log e rest,
     clip_length <> 0 ->
     get_preview_percentage B duration clip_length stdin = ((log, inl e), rest) ->
     rest = [] /\ List.length log = List.length stdin).
Proof.
  assert (Hafter : forall A msg (r : run A * list string) log v rest,
    after (Print msg) r = ((log, v), rest) ->
    exists log', log = Print msg :: log' /\ r = ((log', v), rest)).
  { intros A msg [[log' [e | a]] rest'] log v rest H; cbn in H;
      injection H as <- <- <-; now eexists. }
  split; [|split; [|split]].
  - induction stdin as [|line stdin IH]; intros log v rest H; [discriminate|].
    cbn [get_clip_length] in H.
    destruct (is_empty (str_strip B line)) eqn:He.
    { injection H as <- <- <-. exists [], line. now rewrite He. }
    assert (Hagain : forall msg,
      after (Print msg) (get_clip_length B stdin) = ((log, inr v), rest) ->
      exists rejected accepted,
        line :: stdin = rejected ++ accepted :: rest /\
        List.length log = List.length rejected /\
        (if is_empty (str_strip B accepted) then v = 10
         else int_of_str B (str_strip B accepted) = Some v)).
    { intros msg Hr. apply Hafter in Hr as (log' & -> & Hr).
      destruct (IH _ _ _ Hr) as (rejected & accepted & -> & Hlen & Hv).
      exists (line :: rejected), accepted. simpl. now rewrite Hlen. }
    destruct (int_of_str B (str_strip B line)) as [c|] eqn:Hparse; [|eauto].
    destruct ((1 <=? c) && (c <=? 60)); [|eauto].
    injection H as <- <- <-. exists [], line. now rewrite He.
  - induction stdin as [|line stdin IH]; intros log e rest H.
    { now injection H as <- _ <-. }
    cbn [get_clip_length] in H.
    destruct (is_empty (str_strip B line)); [discriminate|].
    assert (Hagain : forall msg,
      after (Print msg) (get_clip_length B stdin) = ((log, inl e), rest) ->
      rest = [] /\ List.length log = List.length (line :: stdin)).
    { intros msg Hr. apply Hafter in Hr as (log' & -> & Hr).
      destruct (IH _ _ _ Hr) as [-> Hlen]. simpl. now rewrite Hlen. }
    destruct (int_of_str B (str_strip B line)) as [c|]; [|eauto].
    destruct ((1 <=? c) && (c <=? 60)); [discriminate | eauto].
  - intros duration clip_length stdin log f rest. unfold get_preview_percentage.
    destruct (clip_length =? 0); [discriminate|].
    revert log f rest.
    induction stdin as [|line stdin IH]; intros log f rest H; [discriminate|].
    cbn [ask_percentage] in H.
    assert (Hagain : forall msg,
      after (Print msg) (ask_percentage B stdin) = ((log, inr f), rest) ->
      exists rejected accepted percentage,
        line :: stdin = rejected ++ accepted :: rest /\
        List.length log = List.length rejected /\
        float_of_str B accepted = Some (Finite percentage) /\
        f = (percentage / 100)%Q).
    { intros msg Hr. apply Hafter in Hr as (log' & -> & Hr).
      destruct (IH _ _ _ Hr) as (rejected & accepted & p & -> & Hlen & Hp & Hf).
      exists (line :: rejected), accepted, p. simpl. now rewrite Hlen. }
    destruct (float_of_str B line) as [[p|]|] eqn:Hparse; [|eauto|eauto].
    destruct (percentage_in_range (Finite p)); [|eauto].
    injection H as <- <- <-. now exists [], line, p.
  - intros duration clip_length stdin log e rest Hc. unfold get_preview_percentage.
    destruct (Z.eqb_spec clip_length 0); [contradiction|].
    revert log e rest.
    induction stdin as [|line stdin IH]; intros log e rest H.
    { now injection H as <- _ <-. }
    cbn [ask_percentage] in H.
    assert (Hagain : forall msg,
      after (Print msg) (ask_percentage B stdin) = ((log, inl e), rest) ->
      rest = [] /\ List.length log = List.length (line :: stdin)).
    { intros msg Hr. apply Hafter in Hr as (log' & -> & Hr).
      destruct (IH _ _ _ Hr) as [-> Hlen]. simpl. now rewrite Hlen. }
    destruct (float_of_str B line) as [[p|]|]; [|eauto|eauto].
    destruct (percentage_in_range (Finite p)); [discriminate | eauto].
Qed.

Lemma prompts_read_one_line_per_entry_witness :
  exists rejected accepted,
    ["61"%string; "x"%string; "20"%string; "50"%string]
      = rejected ++ accepted :: ["50"%string] /\
    2%nat = List.length rejected /\
    (if is_empty (str_strip decimal_builtins accepted) then 20 = 10
     else int_of_str decimal_builtins (str_strip decimal_builtins accepted) = Some 20).
Proof.
  apply (proj1 (prompts_read_one_line_per_entry decimal_builtins)
           ["61"%string; "x"%string; "20"%string; "50"%string]
           [Print "Please enter a clip length between 1 and 60 seconds.";
            Print "Please enter a valid number."] 20 ["50"%string]).
  reflexivity.
Defined.

(** ** More arithmetic of the plan *)







(** ** The concat list *)






(** ** Printing a duration *)












(** ** Finding ffmpeg *)

Lemma NoDup_snoc {A} (l : list A) (x : A) :
  NoDup l -> ~ In x l -> NoDup (l ++ [x]).
Proof.
  induction l as [|y l IH]; intros Hl Hx; simpl.
  - constructor; [intros [] | constructor].
  - inversion Hl as [|? ? Hy Hl']; subst. constructor.
    + intros Hin. apply in_app_or in Hin as [Hin | [-> | []]]; [now apply Hy|].
      apply Hx. now left.
    + apply IH; [assumption|]. intros Hin. apply Hx. now right.
Qed.

Lemma add_if_new_distinct (source : string) (all_paths : list (string * string))
    (path : string) :
  NoDup (map snd all_paths) -> NoDup (map snd (add_if_new source all_paths path)).
Proof.
  intros Hnd. unfold add_if_new.
  destruct (existsb (String.eqb path) (map snd all_paths)) eqn:Hknown; [exact Hnd|].
  rewrite map_app. simpl. apply NoDup_snoc; [exact Hnd|].
  intros Hin.
  assert (existsb (String.eqb path) (map snd all_paths) = true)
    by (apply existsb_exists; exists path; split; [exact Hin | apply String.eqb_refl]).
  congruence.
Qed.

Lemma add_if_new_head (source : string) (all_paths : list (string * string))
    (path : string) (entry : string * string) :
  hd_error all_paths = Some entry ->
  hd_error (add_if_new source all_paths path) = Some entry.
Proof.
  unfold add_if_new. destruct (existsb _ _); [auto|].
  destruct all_paths; [discriminate | auto].
Qed.

Lemma fold_add_if_new {X} (step : list (string * string) -> X -> list (string * string))
    (xs : list X) (all_paths : list (string * string)) :
  (forall acc x, exists source path, step acc x = add_if_new source acc path) ->
  (NoDup (map snd all_paths) -> NoDup (map snd (fold_left step xs all_paths))) /\
  (forall entry, hd_error all_paths = Some entry ->
                 hd_error (fold_left step xs all_paths) = Some entry).
Proof.
  intros Hstep. revert all_paths.
  induction xs as [|x xs IH]; intros all_paths; simpl; [auto|].
  destruct (Hstep all_paths x) as (source & path & ->).
  destruct (IH (add_if_new source all_paths path)) as [IH1 IH2].
  split.
  - intros Hnd. now apply IH1, add_if_new_distinct.
  - intros entry Hhd. now apply IH2, add_if_new_head.
Qed.

(** X12. The list of installations that [find_ffmpeg] builds never holds
    the same path twice, and the ffmpeg on the PATH, when there is one,
    is its first entry (the default offered to the user). *)
Theorem found_installations_are_distinct (B : builtins) (H : host) :
  NoDup (map snd (found_installations B H)) /\
  (forall ffmpeg_path,
     shutil_which H = Some ffmpeg_path -> is_empty ffmpeg_path = false ->
     hd_error (found_installations B H) = Some ("PATH"%string, ffmpeg_path)).
Proof.
  unfold found_installations.
  set (from_path := match shutil_which H with
                    | Some p => if is_empty p then [] else [("PATH"%string, p)]
                    | None => []
                    end).
  assert (H0 : NoDup (map snd from_path)).
  { unfold from_path. destruct (shutil_which H) as [p|]; [|constructor].
    destruct (is_empty p); [constructor|].
    simpl. constructor; [intros [] | constructor]. }
  set (with_system := match lookup_stdout H with
                      | Some stdout =>
                          if is_empty (str_strip B stdout) then from_path
                          else fold_left (fun all_paths path =>
                                 add_if_new "System" all_paths (str_strip B path))
                                 (split_newline (str_strip B stdout)) from_path
                      | None => from_path
                      end).
  assert (Hsys : (NoDup (map snd with_system)) /\
                 forall entry, hd_error from_path = Some entry ->
                               hd_error with_system = Some entry).
  { unfold with_system. destruct (lookup_stdout H) as [stdout|]; [|auto].
    destruct (is_empty (str_strip B stdout)); [auto|].
    destruct (fold_add_if_new
                (fun all_paths path => add_if_new "System" all_paths (str_strip B path))
                (split_newline (str_strip B stdout)) from_path) as [F1 F2].
    { intros acc x. now exists "System"%string, (str_strip B x). }
    split; [now apply F1 | exact F2]. }
  destruct Hsys as [Hsys1 Hsys2].
  destruct (fold_add_if_new (add_if_new "Found") (walked H) with_system) as [F1 F2].
  { intros acc x. now exists "Found"%string, x. }
  split.
  - destruct (existsb _ with_system); [exact Hsys1|].
    destruct (os_name_nt H); [now apply F1 | exact Hsys1].
  - intros ffmpeg_path Hwhich Hne.
    assert (Hhd : hd_error with_system = Some ("PATH"%string, ffmpeg_path)).
    { apply Hsys2. unfold from_path. now rewrite Hwhich, Hne. }
    destruct (existsb _ with_system); [exact Hhd|].
    destruct (os_name_nt H); [now apply F2 | exact Hhd].
Qed.

Lemma found_installations_are_distinct_witness :
  hd_error (found_installations decimal_builtins (plain_host "" None))
  = Some ("PATH"%string, "/usr/bin/ffmpeg"%string).
Proof.
  apply (proj2 (found_installations_are_distinct decimal_builtins (plain_host "" None)));
    reflexivity.
Defined.

Lemma told_parts {A} (ev : event) (r : session A) :
  told ev r = ((Logged ev :: fst (fst r), snd (fst r)), snd r).
Proof. reflexivity. Qed.

(** The choice loop returns a path of the list, or runs out of input. *)
Lemma choose_installation_sound (B : builtins) (first : string * string)
    (others : list (string * string)) (stdin : list string) :
  match choose_installation B first others stdin with
  | ((_, inr path), _) => In path (map snd (first :: others))
  | ((_, inl i), rest) => i = Raised EOFError /\ rest = []
  end.
Proof.
  induction stdin as [|line stdin IH]; cbn [choose_installation]; [now split|].
  destruct (is_empty (str_strip B line)); [now left|].
  assert (Hagain : forall msg,
    match told (Print msg) (choose_installation B first others stdin) with
    | ((_, inr path), _) => In path (map snd (first :: others))
    | ((_, inl i), rest) => i = Raised EOFError /\ rest = []
    end).
  { intros msg. rewrite told_parts.
    destruct (choose_installation B first others stdin) as [[log [i | path]] rest];
      exact IH. }
  destruct (int_of_str B (str_strip B line)) as [choice_num|]; [|apply Hagain].
  destruct ((1 <=? choice_num)
            && (choice_num <=? Z.of_nat (List.length (first :: others)))) eqn:Hr;
    [|apply Hagain].
  apply andb_true_iff in Hr as [H1 H2]. apply Z.leb_le in H1, H2.
  apply nth_In. rewrite length_map. lia.
Qed.

(** X13. [find_ffmpeg] returns only a path of an installation it found.
    It raises [FileNotFoundError], without reading any input, exactly
    when it found none; otherwise its only error is the end of the
    input.  A single installation on the PATH is returned without a
    question, and an empty answer to the question picks the first
    entry. *)
Theorem find_ffmpeg_returns_an_installation (B : builtins) (H : host)
    (stdin : list string) :
  let installations := found_installations B H in
  match find_ffmpeg B H stdin with
  | ((_, inr path), _) => In path (map snd installations)
  | ((log, inl i), rest) =>
      (i = FileNotFoundError
             "ffmpeg not found. Please install ffmpeg or add it to PATH."
       /\ installations = [] /\ log = [] /\ rest = stdin) \/
      (i = Raised EOFError /\ installations <> [] /\ rest = [])
  end /\
  (installations = [] ->
   snd (fst (find_ffmpeg B H stdin))
   = inl (FileNotFoundError
            "ffmpeg not found. Please install ffmpeg or add it to PATH.")) /\
  (forall path, installations = [("PATH"%string, path)] ->
     find_ffmpeg B H stdin = (([], inr path), stdin)) /\
  (forall first second others line rest,
     installations = first :: second :: others ->
     stdin = line :: rest -> is_empty (str_strip B line) = true ->
     find_ffmpeg B H stdin = (([], inr (snd first)), rest)).
Proof.
  intros installations. unfold find_ffmpeg. fold installations.
  split; [|split; [|split]].
  - destruct installations as [|first others] eqn:Hi; [left; now repeat split|].
    assert (Hloop :
      match choose_installation B first others stdin with
      | ((_, inr path), _) => In path (map snd (first :: others))
      | ((log, inl i), rest) =>
          (i = FileNotFoundError
                 "ffmpeg not found. Please install ffmpeg or add it to PATH."
           /\ first :: others = [] /\ log = [] /\ rest = stdin) \/
          (i = Raised EOFError /\ first :: others <> [] /\ rest = [])
      end).
    { pose proof (choose_installation_sound B first others stdin) as Hs.
      destruct (choose_installation B first others stdin) as [[log [i | path]] rest];
        [|exact Hs].
      right. destruct Hs as [-> ->]. now repeat split. }
    destruct others as [|second others]; [|exact Hloop].
    destruct (String.eqb (fst first) "PATH"); [now left | exact Hloop].
  - intros ->. reflexivity.
  - intros path ->. reflexivity.
  - intros first second others line rest -> -> Hempty.
    cbn [choose_installation]. now rewrite Hempty.
Qed.

Lemma find_ffmpeg_returns_an_installation_witness :
  find_ffmpeg decimal_builtins (plain_host "" None) ["7"%string]
  = (([], inr "/usr/bin/ffmpeg"%string), ["7"%string]).
Proof.
  apply (proj1 (proj2 (proj2 (find_ffmpeg_returns_an_installation decimal_builtins
                                (plain_host "" None) ["7"%string])))).
  reflexivity.
Defined.

(** ** Choosing the video *)


Lemma choose_video_sound (B : builtins) (first : string * Z)
    (others : list (string * Z)) (stdin : list string) :
  match choose_video B first others stdin with
  | ((_, inr info), _) => In info (first :: others)
  | ((_, inl i), rest) => i = Raised EOFError /\ rest = []
  end.
Proof.
  induction stdin as [|line stdin IH]; cbn [choose_video]; [now split|].
  assert (Hagain : forall msg,
    match told (Print msg) (choose_video B first others stdin) with
    | ((_, inr info), _) => In info (first :: others)
    | ((_, inl i), rest) => i = Raised EOFError /\ rest = []
    end).
  { intros msg. rewrite told_parts.
    destruct (choose_video B first others stdin) as [[log [i | info]] rest];
      exact IH. }
  destruct (int_of_str B line) as [choice|]; [|apply Hagain].
  destruct ((1 <=? choice) && (choice <=? Z.of_nat (List.length (first :: others))))
    eqn:Hr; [|apply Hagain].
  apply andb_true_iff in Hr as [H1 H2]. apply Z.leb_le in H1, H2.
  apply nth_In. lia.
Qed.



(** ** The existing output file *)

Local Abbreviation invalid_choice :=
  (Logged (Print "Invalid choice. Please enter O, S, or R.")).

(** What the overwrite loop can do. *)
Lemma ask_overwrite_sound (H : host) (output_path : string) (stdin : list string) :
  exists n,
    let r := ask_overwrite H output_path stdin in
    (fst (fst r) = repeat invalid_choice n /\
     (snd (fst r) = inl (SystemExit 0) \/
      snd (fst r) = inl (Raised EOFError) \/
      exists new_name, In new_name stdin /\
        snd (fst r) = inr (path_sibling H output_path (new_name ++ ".mp4")%string)))
    \/
    (fst (fst r) = repeat invalid_choice n ++ [Os_remove output_path] /\
     snd (fst r) = inr output_path /\
     exists line, In line stdin /\ str_upper H line = "O"%string).
Proof.
  induction stdin as [|line stdin IH]; cbn [ask_overwrite].
  - exists 0%nat. left. split; [reflexivity|]. right. now left.
  - destruct (String.eqb_spec (str_upper H line) "O") as [Ho | _].
    { exists 0%nat. right. split; [reflexivity|]. split; [reflexivity|].
      exists line. split; [now left | exact Ho]. }
    destruct (String.eqb (str_upper H line) "S").
    { exists 0%nat. left. split; [reflexivity|]. now left. }
    destruct (String.eqb (str_upper H line) "R").
    { exists 0%nat. left.
      destruct stdin as [|new_name stdin]; (split; [reflexivity|]);
        [right; now left|].
      right. right. exists new_name. split; [right; now left | reflexivity]. }
    destruct IH as [n IH]. exists (S n). rewrite told_parts. cbn [fst snd].
    destruct IH as [(Hlog & Hres) | (Hlog & Hres & l & Hin & Hl)].
    + left. split; [simpl; now rewrite Hlog|].
      destruct Hres as [Hres | [Hres | (new_name & Hin & Hres)]];
        [now left | right; now left |].
      right. right. exists new_name. split; [now right | exact Hres].
    + right. split; [simpl; now rewrite Hlog|]. split; [exact Hres|].
      exists l. split; [now right | exact Hl].
Qed.



(** ** The whole script *)

Lemma sbind_stop {A C} (m : script A) (k : A -> script C) (stdin rest : list string)
    (log : list action) (i : interruption) :
  m stdin = ((log, inl i), rest) -> sbind m k stdin = ((log, inl i), rest).
Proof. intros Hm. unfold sbind. now rewrite Hm. Qed.

Lemma sbind_go {A C} (m : script A) (k : A -> script C)
    (stdin rest rest' : list string) (log log' : list action) (a : A)
    (r : interruption + C) :
  m stdin = ((log, inr a), rest) ->
  k a rest = ((log', r), rest') ->
  sbind m k stdin = ((log ++ log', r), rest').
Proof. intros Hm Hk. unfold sbind. now rewrite Hm, Hk. Qed.

(** The script stopped after the same steps as the sampler, with the
    same log. *)
Lemma main_script_body_agrees (B : builtins) (W : collaborators) (H : host)
    (stdin : list string) (ffmpeg_path input_video : string) :
  let output_preview :=
    path_sibling H input_video (path_stem H input_video ++ " sampler.mp4")%string in
  let sampler := main_body B W ffmpeg_path input_video output_preview
                   (timestamp_now H) stdin in
  found_installations B H = [("PATH"%string, ffmpeg_path)] ->
  argv1 H = Some input_video ->
  path_exists H input_video = true ->
  path_exists H output_preview = false ->
  fst (main_script_body B W H stdin)
  = (map Logged (fst sampler), interrupted_by (snd sampler)).
Proof.
  intros output_preview sampler Hfound Hargv Hex Hnew. subst sampler.
  assert (Hfind : find_ffmpeg B H stdin = (([], inr ffmpeg_path), stdin))
    by (unfold find_ffmpeg; now rewrite Hfound).
  assert (Hcases :
    (exists e, get_video_duration W ffmpeg_path input_video = ([], inl e)) \/
    (exists d, get_video_duration W ffmpeg_path input_video = ([], inr d))).
  { pose proof (get_video_duration_log W ffmpeg_path input_video) as Hplog.
    destruct (get_video_duration W ffmpeg_path input_video) as [plog [e | d]];
      simpl in Hplog; subst plog; [left; now exists e | right; now exists d]. }
  unfold main_script_body.
  destruct Hcases as [[e Hprobe] | [duration Hprobe]].
  { erewrite sbind_go; [| exact Hfind |].
    2:{ cbv beta. rewrite Hargv, Hex.
        apply sbind_stop. apply sbind_stop. unfold lift_run. rewrite Hprobe.
        reflexivity. }
    unfold main_body. rewrite Hprobe. reflexivity. }
  assert (Hstage : sbind (lift_run (get_video_duration W ffmpeg_path input_video))
                     (fun duration => sret (input_video, duration)) stdin
                   = (([] ++ [], inr (input_video, duration)), stdin)).
  { eapply sbind_go; [unfold lift_run; now rewrite Hprobe | reflexivity]. }
  destruct (get_clip_length B stdin) as [[log1 [e | clip_length]] stdin1] eqn:Hlen.
  { erewrite sbind_go; [| exact Hfind |].
    2:{ cbv beta. rewrite Hargv, Hex. eapply sbind_go; [exact Hstage|].
        cbv beta. apply sbind_stop. unfold lift_prompt. rewrite Hlen. reflexivity. }
    unfold main_body. rewrite Hprobe, Hlen. reflexivity. }
  destruct (get_preview_percentage B duration clip_length stdin1)
    as [[log2 [e | fraction]] stdin2] eqn:Hpct.
  { erewrite sbind_go; [| exact Hfind |].
    2:{ cbv beta. rewrite Hargv, Hex. eapply sbind_go; [exact Hstage|].
        cbv beta. eapply sbind_go.
        - unfold lift_prompt. rewrite Hlen. reflexivity.
        - cbv beta. apply sbind_stop. unfold lift_prompt. cbn [fst snd].
          rewrite Hpct. reflexivity. }
    unfold main_body. rewrite Hprobe, Hlen. cbn [bind fst snd app].
    rewrite Hpct. cbn [bind fst snd app]. now rewrite map_app. }
  erewrite sbind_go; [| exact Hfind |].
  2:{ cbv beta. rewrite Hargv, Hex. eapply sbind_go; [exact Hstage|].
      cbv beta. eapply sbind_go.
      - unfold lift_prompt. rewrite Hlen. reflexivity.
      - cbv beta. eapply sbind_go.
        + unfold lift_prompt. cbn [fst snd]. rewrite Hpct. reflexivity.
        + cbv beta. eapply sbind_go.
          * cbn [fst snd]. fold output_preview.
            unfold handle_existing_file. rewrite Hnew. reflexivity.
          * cbv beta. unfold lift_run. reflexivity. }
  rewrite (main_body_after_prompts B W _ _ _ _ _ _ _ _ _ _ _ _ Hprobe Hlen Hpct).
  cbn [fst snd app].
  destruct (assemble W ffmpeg_path input_video output_preview
              ("clips_" ++ timestamp_now H) (inject_Z duration)
              (Py.round (inject_Z duration * fraction)) clip_length)
    as [log3 r3].
  unfold bind, emit. cbn [fst snd app].
  destruct r3; cbn [fst snd app interrupted_by];
    rewrite !map_app; reflexivity.
Qed.

(** X16. With a single ffmpeg, found on the PATH, a video named on the
    command line that exists, and no preview file in the way, the whole
    script asks nothing but the two parameters and does what [main] of
    the sampler does: the same log, the same exit status. *)
Theorem main_script_agrees_with_main (B : builtins) (W : collaborators) (H : host)
    (stdin : list string) (ffmpeg_path input_video : string) :
  let output_preview :=
    path_sibling H input_video (path_stem H input_video ++ " sampler.mp4")%string in
  let sampler := main B W ffmpeg_path input_video output_preview
                   (timestamp_now H) stdin in
  found_installations B H = [("PATH"%string, ffmpeg_path)] ->
  argv1 H = Some input_video ->
  path_exists H input_video = true ->
  path_exists H output_preview = false ->
  main_script B W H stdin = (map Logged (fst sampler), snd sampler).
Proof.
  intros output_preview sampler Hfound Hargv Hex Hnew. subst sampler.
  unfold main_script, main.
  rewrite (main_script_body_agrees B W H stdin ffmpeg_path input_video
             Hfound Hargv Hex Hnew).
  fold output_preview.
  destruct (main_body B W ffmpeg_path input_video output_preview
              (timestamp_now H) stdin) as [log [e | done]];
    cbn [fst snd interrupted_by]; [|reflexivity].
  now rewrite map_app.
Qed.

Lemma main_script_agrees_with_main_witness :
  main_script decimal_builtins (reporting "  Duration: 00:00:37.00, start")
    (plain_host "in.mp4" (Some "in.mp4"%string)) ["10"%string; "50"%string]
  = (map Logged
       (fst (main decimal_builtins (reporting "  Duration: 00:00:37.00, start")
               "/usr/bin/ffmpeg" "in.mp4" "in sampler.mp4" "T"
               ["10"%string; "50"%string])), 0).
Proof.
  apply (main_script_agrees_with_main decimal_builtins
           (reporting "  Duration: 00:00:37.00, start")
           (plain_host "in.mp4" (Some "in.mp4"%string))
           ["10"%string; "50"%string] "/usr/bin/ffmpeg" "in.mp4"); reflexivity.
Defined.

(** ** What the script removes *)

Local Abbreviation no_removal :=
  (fun log : list action => forall p, ~ In (Os_remove p) log).

Lemma logged_no_removal (log : list event) : no_removal (map Logged log).
Proof. intros p Hin. apply in_map_iff in Hin as (ev & Heq & _). discriminate. Qed.

Lemma sbind_inv {A C} (m : script A) (k : A -> script C) (stdin rest : list string)
    (log : list action) (r : interruption + C) :
  sbind m k stdin = ((log, r), rest) ->
  (exists i, m stdin = ((log, inl i), rest) /\ r = inl i) \/
  (exists a log1 rest1 log2,
     m stdin = ((log1, inr a), rest1) /\ k a rest1 = ((log2, r), rest) /\
     log = log1 ++ log2).
Proof.
  unfold sbind. destruct (m stdin) as [[log1 [i | a]] rest1].
  - intros [= <- <- <-]. left. now exists i.
  - destruct (k a rest1) as [[log2 r2] rest2] eqn:Hk.
    intros [= <- <- <-]. right. now exists a, log1, rest1, log2.
Qed.

Lemma get_clip_length_rest (B : builtins) (stdin : list string) :
  incl (snd (get_clip_length B stdin)) stdin.
Proof.
  induction stdin as [|line stdin IH]; cbn [get_clip_length]; [apply incl_refl|].
  destruct (is_empty (str_strip B line)); [apply incl_tl, incl_refl|].
  destruct (int_of_str B (str_strip B line)) as [c|];
    [destruct ((1 <=? c) && (c <=? 60)); [apply incl_tl, incl_refl|]|];
    apply incl_tl; exact IH.
Qed.

Lemma get_preview_percentage_rest (B : builtins) (duration clip_length : Z)
    (stdin : list string) :
  incl (snd (get_preview_percentage B duration clip_length stdin)) stdin.
Proof.
  unfold get_preview_percentage.
  destruct (clip_length =? 0); [apply incl_refl|].
  induction stdin as [|line stdin IH]; cbn [ask_percentage]; [apply incl_refl|].
  destruct (float_of_str B line) as [[p|]|];
    [destruct (percentage_in_range (Finite p)); [apply incl_tl, incl_refl|]| |];
    apply incl_tl; exact IH.
Qed.

Lemma choose_installation_quiet (B : builtins) (first : string * string)
    (others : list (string * string)) (stdin : list string) :
  no_removal (fst (fst (choose_installation B first others stdin))) /\
  incl (snd (choose_installation B first others stdin)) stdin.
Proof.
  induction stdin as [|line stdin [IH1 IH2]]; cbn [choose_installation].
  - split; [intros p [] | apply incl_refl].
  - assert (Hagain : forall msg,
      no_removal (fst (fst (told (Print msg)
                              (choose_installation B first others stdin)))) /\
      incl (snd (told (Print msg) (choose_installation B first others stdin)))
           (line :: stdin)).
    { intros msg. rewrite told_parts. cbn [fst snd]. split.
      - intros p [Hp | Hp]; [discriminate | now apply (IH1 p)].
      - now apply incl_tl. }
    destruct (is_empty (str_strip B line));
      [split; [intros p [] | apply incl_tl, incl_refl]|].
    destruct (int_of_str B (str_strip B line)) as [n|]; [|apply Hagain].
    destruct ((1 <=? n) && (n <=? Z.of_nat (List.length (first :: others))));
      [split; [intros p [] | apply incl_tl, incl_refl] | apply Hagain].
Qed.

Lemma find_ffmpeg_quiet (B : builtins) (H : host) (stdin : list string) :
  no_removal (fst (fst (find_ffmpeg B H stdin))) /\
  incl (snd (find_ffmpeg B H stdin)) stdin.
Proof.
  unfold find_ffmpeg.
  destruct (found_installations B H) as [|first others];
    [split; [intros p [] | apply incl_refl]|].
  destruct others as [|second others]; [|apply choose_installation_quiet].
  destruct (String.eqb (fst first) "PATH");
    [split; [intros p [] | apply incl_refl] | apply choose_installation_quiet].
Qed.

Lemma choose_video_quiet (B : builtins) (first : string * Z)
    (others : list (string * Z)) (stdin : list string) :
  no_removal (fst (fst (choose_video B first others stdin))) /\
  incl (snd (choose_video B first others stdin)) stdin.
Proof.
  induction stdin as [|line stdin [IH1 IH2]]; cbn [choose_video].
  - split; [intros p [] | apply incl_refl].
  - assert (Hagain : forall msg,
      no_removal (fst (fst (told (Print msg) (choose_video B first others stdin)))) /\
      incl (snd (told (Print msg) (choose_video B first others stdin)))
           (line :: stdin)).
    { intros msg. rewrite told_parts. cbn [fst snd]. split.
      - intros p [Hp | Hp]; [discriminate | now apply (IH1 p)].
      - now apply incl_tl. }
    destruct (int_of_str B line) as [n|]; [|apply Hagain].
    destruct ((1 <=? n) && (n <=? Z.of_nat (List.length (first :: others))));
      [split; [intros p [] | apply incl_tl, incl_refl] | apply Hagain].
Qed.

(** The step of [main] that settles the video and its duration. *)
Lemma video_step_quiet (B : builtins) (W : collaborators) (H : host)
    (ffmpeg_path : string) (stdin : list string) :
  let step :=
    match argv1 H with
    | Some input_video =>
        if path_exists H input_video
        then sbind (lift_run (get_video_duration W ffmpeg_path input_video))
                   (fun duration => sret (input_video, duration))
        else exit_with ("Error: Video file '" ++ input_video ++ "' not found.") 1
    | None => select_video_file B W H ffmpeg_path
    end in
  no_removal (fst (fst (step stdin))) /\
  incl (snd (step stdin)) stdin /\
  forall chosen, snd (fst (step stdin)) = inr chosen ->
    argv1 H = Some (fst chosen) \/
    (argv1 H = None /\ In (fst chosen) (glob_mp4 H)).
Proof.
  intros step. subst step.
  destruct (argv1 H) as [input_video|].
  - destruct (path_exists H input_video).
    + unfold sbind, lift_run, sret.
      destruct (get_video_duration W ffmpeg_path input_video) as [plog [e | d]];
        cbn [fst snd interrupted_by].
      * split; [apply logged_no_removal|]. split; [apply incl_refl | discriminate].
      * split.
        { rewrite app_nil_r. apply logged_no_removal. }
        split; [apply incl_refl|]. intros chosen [= <-]. now left.
    + cbn. split; [intros p [Hp | []]; discriminate|].
      split; [apply incl_refl | discriminate].
  - unfold select_video_file.
    destruct (glob_mp4 H) as [|file files] eqn:Hglob.
    + cbn. split; [intros p [Hp | []]; discriminate|].
      split; [apply incl_refl | discriminate].
    + cbn [map].
      destruct (choose_video_quiet B (file, listed_duration W ffmpeg_path file)
                  (map (fun f => (f, listed_duration W ffmpeg_path f)) files) stdin)
        as [Hq Hi].
      split; [exact Hq|]. split; [exact Hi|].
      intros chosen Hres. right. split; [reflexivity|].
      pose proof (choose_video_sound B (file, listed_duration W ffmpeg_path file)
                    (map (fun f => (f, listed_duration W ffmpeg_path f)) files) stdin)
        as Hs.
      destruct (choose_video _ _ _ _) as [[log [i | info]] rest];
        cbn [fst snd] in Hres; [discriminate|].
      injection Hres as <-.
      change ((file, listed_duration W ffmpeg_path file)
              :: map (fun f => (f, listed_duration W ffmpeg_path f)) files)
        with (map (fun f => (f, listed_duration W ffmpeg_path f)) (file :: files))
        in Hs.
      apply in_map_iff in Hs as (f & <- & Hin). exact Hin.
Qed.




(** ** The exit status of the script *)

Local Abbreviation all_said :=
  (fun log : list action => forall a, In a log -> exists msg, a = Logged (Print msg)).

Lemma all_said_app (l1 l2 : list action) :
  all_said l1 -> all_said l2 -> all_said (l1 ++ l2).
Proof. intros H1 H2 a Hin. apply in_app_or in Hin as [Hin | Hin]; auto. Qed.

Lemma only_prints_said (log : list event) :
  only_prints log -> all_said (map Logged log).
Proof.
  intros Hp a Hin. apply in_map_iff in Hin as (ev & <- & Hev).
  unfold only_prints in Hp. rewrite Forall_forall in Hp.
  destruct (Hp ev Hev) as [msg ->]. now exists msg.
Qed.

Lemma choose_installation_said (B : builtins) (first : string * string)
    (others : list (string * string)) (stdin : list string) :
  all_said (fst (fst (choose_installation B first others stdin))).
Proof.
  induction stdin as [|line stdin IH]; cbn [choose_installation]; [intros a []|].
  assert (Hagain : forall msg,
    all_said (fst (fst (told (Print msg)
                          (choose_installation B first others stdin))))).
  { intros msg a [<- | Hin]; [now exists msg | now apply IH]. }
  destruct (is_empty (str_strip B line)); [intros a []|].
  destruct (int_of_str B (str_strip B line)) as [n|]; [|apply Hagain].
  destruct ((1 <=? n) && (n <=? Z.of_nat (List.length (first :: others))));
    [intros a [] | apply Hagain].
Qed.

Lemma find_ffmpeg_said (B : builtins) (H : host) (stdin : list string) :
  all_said (fst (fst (find_ffmpeg B H stdin))) /\
  forall status, snd (fst (find_ffmpeg B H stdin)) <> inl (SystemExit status).
Proof.
  unfold find_ffmpeg.
  assert (Hloop : forall first others,
    all_said (fst (fst (choose_installation B first others stdin))) /\
    forall status,
      snd (fst (choose_installation B first others stdin)) <> inl (SystemExit status)).
  { intros first others. split; [apply choose_installation_said|].
    intros status Hs.
    pose proof (choose_installation_sound B first others stdin) as Hsound.
    destruct (choose_installation B first others stdin) as [[log [i | p]] rest];
      cbn [fst snd] in Hs; [|discriminate].
    destruct Hsound as [-> _]. discriminate. }
  destruct (found_installations B H) as [|first others];
    [split; [intros a [] | discriminate]|].
  destruct others as [|second others]; [|apply Hloop].
  destruct (String.eqb (fst first) "PATH");
    [split; [intros a [] | discriminate] | apply Hloop].
Qed.

Lemma choose_video_said (B : builtins) (first : string * Z)
    (others : list (string * Z)) (stdin : list string) :
  all_said (fst (fst (choose_video B first others stdin))).
Proof.
  induction stdin as [|line stdin IH]; cbn [choose_video]; [intros a []|].
  assert (Hagain : forall msg,
    all_said (fst (fst (told (Print msg) (choose_video B first others stdin))))).
  { intros msg a [<- | Hin]; [now exists msg | now apply IH]. }
  destruct (int_of_str B line) as [n|]; [|apply Hagain].
  destruct ((1 <=? n) && (n <=? Z.of_nat (List.length (first :: others))));
    [intros a [] | apply Hagain].
Qed.

Lemma video_step_said (B : builtins) (W : collaborators) (H : host)
    (ffmpeg_path : string) (stdin : list string) :
  let step :=
    match argv1 H with
    | Some input_video =>
        if path_exists H input_video
        then sbind (lift_run (get_video_duration W ffmpeg_path input_video))
                   (fun duration => sret (input_video, duration))
        else exit_with ("Error: Video file '" ++ input_video ++ "' not found.") 1
    | None => select_video_file B W H ffmpeg_path
    end in
  all_said (fst (fst (step stdin))) /\
  forall status, snd (fst (step stdin)) = inl (SystemExit status) -> status = 1.
Proof.
  intros step. subst step.
  destruct (argv1 H) as [input_video|].
  - destruct (path_exists H input_video).
    + unfold sbind, lift_run, sret.
      pose proof (get_video_duration_log W ffmpeg_path input_video) as Hplog.
      destruct (get_video_duration W ffmpeg_path input_video) as [plog [e | d]];
        simpl in Hplog; subst plog; cbn [fst snd interrupted_by map app];
        (split; [intros a [] | discriminate]).
    + cbn. split; [|now intros status [= <-]]. intros a [<- | []]. now eexists.
  - unfold select_video_file.
    destruct (glob_mp4 H) as [|file files].
    + cbn. split; [|now intros status [= <-]]. intros a [<- | []]. now eexists.
    + cbn [map]. split; [apply choose_video_said|].
      pose proof (choose_video_sound B (file, listed_duration W ffmpeg_path file)
                    (map (fun f => (f, listed_duration W ffmpeg_path f)) files) stdin)
        as Hs.
      destruct (choose_video _ _ _ _) as [[log [i | info]] rest]; cbn [fst snd];
        [|discriminate].
      destruct Hs as [-> _]. discriminate.
Qed.

(** After the answer [S] the loop has printed messages only. *)
Lemma ask_overwrite_skip (H : host) (output_path : string) (stdin : list string) :
  all_said (fst (fst (ask_overwrite H output_path stdin))) \/
  (exists output_preview,
     snd (fst (ask_overwrite H output_path stdin)) = inr output_preview).
Proof.
  destruct (ask_overwrite_sound H output_path stdin) as [n Hs]. cbv zeta in Hs.
  destruct Hs as [(Hlog & _) | (_ & Hres & _)].
  - left. rewrite Hlog. intros a Hin. apply repeat_spec in Hin. subst a.
    now eexists.
  - right. now exists output_path.
Qed.

Lemma ask_overwrite_exit (H : host) (output_path : string) (stdin : list string)
    (status : Z) :
  snd (fst (ask_overwrite H output_path stdin)) = inl (SystemExit status) ->
  status = 0 /\ exists line, In line stdin /\ str_upper H line = "S"%string.
Proof.
  induction stdin as [|line stdin IH]; cbn [ask_overwrite]; [discriminate|].
  destruct (String.eqb (str_upper H line) "O"); [discriminate|].
  destruct (String.eqb_spec (str_upper H line) "S") as [Hs | _].
  { intros [= <-]. split; [reflexivity|]. exists line. split; [now left | exact Hs]. }
  destruct (String.eqb (str_upper H line) "R").
  { destruct stdin; discriminate. }
  rewrite told_parts. cbn [fst snd]. intros Hres.
  destruct (IH Hres) as (-> & l & Hin & Hl). split; [reflexivity|].
  exists l. split; [now right | exact Hl].
Qed.

Lemma emit_then {A} (ev : event) (m : run A) :
  (emit ev ;; m) = (ev :: fst m, snd m).
Proof. now destruct m as [t r]. Qed.

Lemma assemble_returns_after_cleanup (W : collaborators)
    (ffmpeg_path input_video output_preview clips_dir : string)
    (duration : Q) (preview_duration clip_length : Z) (done : unit) :
  clip_length <> 0 ->
  snd (assemble W ffmpeg_path input_video output_preview clips_dir
         duration preview_duration clip_length) = inr done ->
  exists before,
    fst (assemble W ffmpeg_path input_video output_preview clips_dir
           duration preview_duration clip_length)
    = before ++ [Cleanup clips_dir "concat.txt"].
Proof.
  intros Hc Hdone.
  destruct (assemble_shape W ffmpeg_path input_video output_preview clips_dir
              duration preview_duration clip_length Hc)
    as [(_ & _ & Hasm) | [(cause & _ & _ & Hasm) | (k & cause & _ & _ & _ & Hasm)]];
    rewrite Hasm in Hdone |- *; cbn [fst snd] in *; try discriminate.
  eexists (_ ++ [_; _]). rewrite <- app_assoc. reflexivity.
Qed.

(** How the body of [main] can end: after the cleanup, by [sys.exit]
    having done nothing but print, or with an exception. *)
Lemma main_script_body_ends (B : builtins) (W : collaborators) (H : host)
    (stdin rest : list string) (log : list action) (r : interruption + unit) :
  main_script_body B W H stdin = ((log, r), rest) ->
  match r with
  | inr _ =>
      exists before,
        log = before ++ [Logged (Cleanup ("clips_" ++ timestamp_now H) "concat.txt")]
  | inl (SystemExit status) =>
      all_said log /\
      (status = 1 \/
       (status = 0 /\ exists line, In line stdin /\ str_upper H line = "S"%string))
  | inl _ => True
  end.
Proof.
  intros Hbody. unfold main_script_body in Hbody.
  destruct (find_ffmpeg_said B H stdin) as [Hs0 Hne0].
  destruct (find_ffmpeg_quiet B H stdin) as [_ Hi0].
  apply sbind_inv in Hbody
    as [(i & Hm & ->) | (ffmpeg_path & log0 & rest0 & logA & Hm0 & Hk & ->)].
  { rewrite Hm in Hne0. cbn [fst snd] in Hne0.
    destruct i as [status | msg | e]; try exact I. now destruct (Hne0 status). }
  rewrite Hm0 in Hs0, Hi0. cbn [fst snd] in Hs0, Hi0. clear Hne0.
  cbv beta in Hk.
  destruct (video_step_said B W H ffmpeg_path rest0) as (Hs1 & Hst1).
  destruct (video_step_quiet B W H ffmpeg_path rest0) as (_ & Hi1 & _).
  apply sbind_inv in Hk
    as [(i & Hm & ->) | (chosen & log1 & rest1 & logB & Hm1 & Hk & ->)].
  { rewrite Hm in Hs1, Hst1. cbn [fst snd] in Hs1, Hst1.
    destruct i as [status | msg | e]; try exact I.
    split; [now apply all_said_app|]. left. now apply Hst1. }
  rewrite Hm1 in Hs1, Hi1. cbn [fst snd] in Hs1, Hi1. clear Hst1.
  cbv beta zeta in Hk.
  pose proof (get_clip_length_sound B rest1) as [Hp2 Hv2].
  pose proof (get_clip_length_rest B rest1) as Hi2.
  apply sbind_inv in Hk
    as [(i & Hm & ->) | (clip_length & log2 & rest2 & logC & Hm2 & Hk & ->)].
  { unfold lift_prompt in Hm. injection Hm as _ Hi _.
    destruct (snd (fst (get_clip_length B rest1))); [|discriminate].
    now injection Hi as <-. }
  unfold lift_prompt in Hm2. injection Hm2 as <- Hc <-.
  destruct (snd (fst (get_clip_length B rest1))) as [e | c]; [discriminate|].
  injection Hc as ->. pose proof (only_prints_said _ Hp2) as Hs2.
  cbv beta in Hk.
  set (stdin2 := snd (get_clip_length B rest1)) in *.
  pose proof (get_preview_percentage_rest B (snd chosen) clip_length stdin2) as Hi3.
  assert (Hp3 : only_prints
                  (fst (fst (get_preview_percentage B (snd chosen) clip_length stdin2)))).
  { unfold get_preview_percentage.
    destruct (clip_length =? 0); [constructor | apply ask_percentage_sound]. }
  pose proof (only_prints_said _ Hp3) as Hs3.
  apply sbind_inv in Hk
    as [(i & Hm & ->) | (fraction & log3 & rest3 & logD & Hm3 & Hk & ->)].
  { unfold lift_prompt in Hm. injection Hm as _ Hi _.
    destruct (snd (fst (get_preview_percentage B (snd chosen) clip_length stdin2)));
      [|discriminate].
    now injection Hi as <-. }
  unfold lift_prompt in Hm3. injection Hm3 as <- _ <-.
  cbv beta in Hk.
  set (stdin3 := snd (get_preview_percentage B (snd chosen) clip_length stdin2)) in *.
  set (output_path := path_sibling H (fst chosen)
                        (path_stem H (fst chosen) ++ " sampler.mp4")%string) in *.
  apply sbind_inv in Hk
    as [(i & Hm & ->) | (output_preview & log4 & rest4 & logE & Hm4 & Hk & ->)].
  { destruct i as [status | msg | e]; try exact I.
    unfold handle_existing_file in Hm.
    destruct (path_exists H output_path); [|discriminate].
    destruct (ask_overwrite_exit H output_path stdin3 status) as (-> & line & Hin & Hl);
      [now rewrite Hm|].
    split.
    - repeat apply all_said_app; try assumption.
      destruct (ask_overwrite_skip H output_path stdin3) as [Hs | [p Hp]];
        rewrite Hm in *; [exact Hs | discriminate].
    - right. split; [reflexivity|]. exists line. split; [|exact Hl].
      apply Hi0, Hi1, Hi2, Hi3, Hin. }
  cbv beta zeta in Hk.
  remember (assemble W ffmpeg_path (fst chosen) output_preview
              ("clips_" ++ timestamp_now H) (inject_Z (snd chosen))
              (Py.round (inject_Z (snd chosen) * fraction)) clip_length)
    as outcome eqn:Hout.
  rewrite emit_then in Hk. unfold lift_run in Hk.
  cbn [fst snd] in Hk. injection Hk as <- Hr _.
  destruct outcome as [alog [e | done]]; cbn [fst snd interrupted_by] in *;
    subst r; [exact I|].
  destruct (assemble_returns_after_cleanup W ffmpeg_path (fst chosen) output_preview
              ("clips_" ++ timestamp_now H) (inject_Z (snd chosen))
              (Py.round (inject_Z (snd chosen) * fraction)) clip_length done)
    as [before Hbefore]; [lia | now rewrite <- Hout |].
  rewrite <- Hout in Hbefore. cbn [fst] in Hbefore. subst alog.
  exists (log0 ++ log1 ++ map Logged (fst (fst (get_clip_length B rest1)))
          ++ map Logged (fst (fst (get_preview_percentage B (snd chosen)
                                     clip_length stdin2)))
          ++ log4 ++ Logged (Mkdir ("clips_" ++ timestamp_now H))
          :: map Logged before).
  cbn [map]. rewrite map_app. cbn [map].
  repeat rewrite <- app_assoc. cbn [app]. reflexivity.
Qed.

(** X18. The script ends with status 0 or 1.  A run whose last recorded
    action is the cleanup of the temporary clips ends with status 0.  A
    run that ends with status 0 either ended with that cleanup, or was
    given the answer [S] at the overwrite question: then it has made no
    directory, cut no clip, written no list, joined nothing and removed
    nothing (every recorded action is a printed message), so status 0
    does not mean that a preview was made. *)
Theorem script_exit_status (B : builtins) (W : collaborators) (H : host)
    (stdin : list string) :
  (snd (main_script B W H stdin) = 0 \/ snd (main_script B W H stdin) = 1) /\
  ((exists before,
      fst (main_script B W H stdin)
      = before ++ [Logged (Cleanup ("clips_" ++ timestamp_now H) "concat.txt")]) ->
   snd (main_script B W H stdin) = 0) /\
  (snd (main_script B W H stdin) = 0 ->
   (exists before,
      fst (main_script B W H stdin)
      = before ++ [Logged (Cleanup ("clips_" ++ timestamp_now H) "concat.txt")]) \/
   ((forall a, In a (fst (main_script B W H stdin)) ->
       exists msg, a = Logged (Print msg)) /\
    exists line, In line stdin /\ str_upper H line = "S"%string)).
Proof.
  unfold main_script.
  destruct (main_script_body B W H stdin) as [[log r] rest] eqn:Hbody.
  pose proof (main_script_body_ends B W H stdin rest log r Hbody) as Hends.
  cbn [fst].
  destruct r as [[status | msg | e] | done]; cbn [fst snd].
  - destruct Hends as [Hsaid Hstatus]. split; [|split].
    + destruct Hstatus as [-> | [-> _]]; [now right | now left].
    + intros [before Hlog]. exfalso.
      destruct (Hsaid (Logged (Cleanup ("clips_" ++ timestamp_now H) "concat.txt")))
        as [said Heq]; [|discriminate].
      rewrite Hlog. apply in_or_app. right. now left.
    + intros ->. right. split; [exact Hsaid|].
      destruct Hstatus as [Hone | [_ Hline]]; [discriminate | exact Hline].
  - split; [now right|]. split; [|discriminate].
    intros [before Hlog]. apply app_inj_tail in Hlog as [_ Hlast]. discriminate.
  - split; [now right|]. split; [|discriminate].
    intros [before Hlog]. apply app_inj_tail in Hlog as [_ Hlast]. discriminate.
  - split; [now left|]. split; [reflexivity|]. intros _. now left.
Qed.

Lemma script_exit_status_witness :
  (exists before,
     fst (main_script decimal_builtins (reporting "  Duration: 00:00:37.00, start")
            (plain_host "b sampler.mp4" None)
            ["2"%string; "10"%string; "50"%string; "S"%string])
     = before ++ [Logged (Cleanup "clips_T" "concat.txt")]) \/
  ((forall a,
      In a (fst (main_script decimal_builtins
                   (reporting "  Duration: 00:00:37.00, start")
                   (plain_host "b sampler.mp4" None)
                   ["2"%string; "10"%string; "50"%string; "S"%string])) ->
      exists msg, a = Logged (Print msg)) /\
   exists line,
     In line ["2"%string; "10"%string; "50"%string; "S"%string] /\
     line = "S"%string).
Proof.
  apply (proj2 (proj2 (script_exit_status decimal_builtins
                         (reporting "  Duration: 00:00:37.00, start")
                         (plain_host "b sampler.mp4" None)
                         ["2"%string; "10"%string; "50"%string; "S"%string]))).
  reflexivity.
Defined.
